(** * Cosmos DB retry policy for the gocql Cassandra driver

    A shallow embedding of [retry/cosmos_retry_policy.go] together with the
    parts of the Go runtime and standard library the policy calls
    ([strings.Contains], [strings.Split], [strings.TrimSpace],
    [strconv.Atoi], [rand.Intn], [time.Duration]), followed by the
    properties of the policy.

    Conventions.
    - Go's [int], [int64] and [time.Duration] are 64-bit two's complement
      integers (a 64-bit platform is assumed).  They are embedded as [Z]
      and every arithmetic operation of the source is followed by [wrap64].
    - A Go [string] is a sequence of bytes and is embedded as Rocq's
      [string] (a sequence of 8-bit [ascii]).
    - A run-time panic (slice index out of range) is an explicit outcome.
    - [math/rand]'s shared source is embedded as the raw value it yields
      next; [time.Sleep] is recorded in a trace of requested sleeps. *)

From Stdlib Require Import ZArith Lia List Bool.
From Stdlib Require Import Strings.Ascii Strings.String.
Import ListNotations.

Local Open Scope Z_scope.

(** ** The Go runtime: machine integers, panics, indexing *)

Module Go.

(** Reduction of a mathematical integer to the signed 64-bit range. *)
Definition wrap64 (x : Z) : Z := (x + 2 ^ 63) mod 2 ^ 64 - 2 ^ 63.

(** Reduction to the unsigned 64-bit range ([uint64]). *)
Definition wrapU64 (x : Z) : Z := x mod 2 ^ 64.

Definition minInt64 : Z := - 2 ^ 63.
Definition maxInt64 : Z := 2 ^ 63 - 1.

Inductive panic : Type :=
| IndexOutOfRange (index : nat) (length : nat)
| InvalidArgument (what : string).

Inductive outcome (A : Type) : Type :=
| Returns (a : A)
| Panics (p : panic).

Arguments Returns {A} a.
Arguments Panics {A} p.

Definition bind {A B : Type} (m : outcome A) (k : A -> outcome B) : outcome B :=
  match m with
  | Returns a => k a
  | Panics p => Panics p
  end.

(** [s[i]] on a slice: a run-time panic when [i] is out of range. *)
Definition index {A : Type} (s : list A) (i : nat) : outcome A :=
  match nth_error s i with
  | Some a => Returns a
  | None => Panics (IndexOutOfRange i (List.length s))
  end.

(** The value of a byte of a string. *)
Definition byte (c : ascii) : Z := Z.of_N (N_of_ascii c).

Definition bytes (s : string) : list Z := map byte (list_ascii_of_string s).

End Go.

Notation "x <- m ;; k" := (Go.bind m (fun x => k))
  (at level 61, m at next level, right associativity).

(** ** Package unicode/utf8 *)

Module utf8.

Definition RuneError : Z := 65533.
Definition RuneSelf : Z := 128.
Definition UTFMax : nat := 4.

(** A byte that is not a continuation byte [10xxxxxx]. *)
Definition RuneStart (b : Z) : bool := negb (Z.land b 192 =? 128).

Definition inRange (lo hi b : Z) : bool := (lo <=? b) && (b <=? hi).

(** The information of the table [first] and of [acceptRanges]: for a
    leading byte, the length of the sequence it opens and the range
    accepted for the second byte; [None] for ASCII and invalid bytes. *)
Definition first (b : Z) : option (nat * Z * Z) :=
  if inRange 194 223 b then Some (2%nat, 128, 191)
  else if b =? 224 then Some (3%nat, 160, 191)
  else if inRange 225 236 b then Some (3%nat, 128, 191)
  else if b =? 237 then Some (3%nat, 128, 159)
  else if inRange 238 239 b then Some (3%nat, 128, 191)
  else if b =? 240 then Some (4%nat, 144, 191)
  else if inRange 241 243 b then Some (4%nat, 128, 191)
  else if b =? 244 then Some (4%nat, 128, 143)
  else None.

Definition cont (b : Z) : Z := Z.land b 63.

(** [utf8.DecodeRuneInString]: the first rune of [s] and its width. *)
Definition DecodeRuneInString (s : list Z) : Z * nat :=
  match s with
  | [] => (RuneError, 0%nat)
  | s0 :: rest =>
    match first s0 with
    | None => if s0 <? RuneSelf then (s0, 1%nat) else (RuneError, 1%nat)
    | Some (sz, lo, hi) =>
      if (List.length s <? sz)%nat then (RuneError, 1%nat) else
      match rest with
      | [] => (RuneError, 1%nat)
      | s1 :: rest1 =>
        if negb (inRange lo hi s1) then (RuneError, 1%nat) else
        if (sz <=? 2)%nat
        then (Z.lor (Z.shiftl (Z.land s0 31) 6) (cont s1), 2%nat) else
        match rest1 with
        | [] => (RuneError, 1%nat)
        | s2 :: rest2 =>
          if negb (inRange 128 191 s2) then (RuneError, 1%nat) else
          if (sz <=? 3)%nat
          then (Z.lor (Z.shiftl (Z.land s0 15) 12)
                  (Z.lor (Z.shiftl (cont s1) 6) (cont s2)), 3%nat) else
          match rest2 with
          | [] => (RuneError, 1%nat)
          | s3 :: _ =>
            if negb (inRange 128 191 s3) then (RuneError, 1%nat) else
            (Z.lor (Z.shiftl (Z.land s0 7) 18)
               (Z.lor (Z.shiftl (cont s1) 12)
                  (Z.lor (Z.shiftl (cont s2) 6) (cont s3))), 4%nat)
          end
        end
      end
    end
  end.

(** The backward scan of [DecodeLastRuneInString]: from [start] down to
    [lim], stop at the first byte that starts a rune.  The result is the
    value of [start] when the loop exits ([None] stands for an index
    below zero). *)
Fixpoint scanBack (s : list Z) (lim : nat) (fuel : nat) (start : option nat)
  : option nat :=
  match fuel, start with
  | S fuel', Some i =>
    if (i <? lim)%nat then start
    else if RuneStart (nth i s 0) then start
    else scanBack s lim fuel' (match i with O => None | S j => Some j end)
  | _, _ => start
  end.

(** [utf8.DecodeLastRuneInString]: the last rune of [s] and its width. *)
Definition DecodeLastRuneInString (s : list Z) : Z * nat :=
  let e := List.length s in
  match e with
  | O => (RuneError, 0%nat)
  | S start0 =>
    let r := nth start0 s 0 in
    if r <? RuneSelf then (r, 1%nat) else
    let lim := (e - UTFMax)%nat in
    let start :=
      match start0 with
      | O => None
      | S i => scanBack s lim (S UTFMax) (Some i)
      end in
    let start := match start with None => 0%nat | Some i => i end in
    let '(r, size) := DecodeRuneInString (skipn start s) in
    if negb (start + size =? e)%nat then (RuneError, 1%nat) else (r, size)
  end.

End utf8.

(** ** Package unicode *)

Module unicode.

(** [unicode.IsSpace]: the Latin-1 space characters and the code points
    with the White_Space property. *)
Definition IsSpace (r : Z) : bool :=
  if r <=? 255 then
    (r =? 9) || (r =? 10) || (r =? 11) || (r =? 12) || (r =? 13)
    || (r =? 32) || (r =? 133) || (r =? 160)
  else
    (r =? 5760) || utf8.inRange 8192 8202 r || (r =? 8232) || (r =? 8233)
    || (r =? 8239) || (r =? 8287) || (r =? 12288).

End unicode.

(** ** Package strings *)

Module strings.

(** [strings.HasPrefix s prefix]. *)
Fixpoint HasPrefix (s prefix : string) : bool :=
  match prefix, s with
  | EmptyString, _ => true
  | String _ _, EmptyString => false
  | String p prefix', String c s' => Ascii.eqb c p && HasPrefix s' prefix'
  end.

(** [strings.Contains s substr]: [substr] occurs somewhere within [s]. *)
Fixpoint Contains (s substr : string) : bool :=
  HasPrefix s substr ||
  match s with
  | EmptyString => false
  | String _ s' => Contains s' substr
  end.

(** [strings.Split s sep] for a separator of one byte, which is how the
    policy calls it (with [","] and with ["="]): the substrings between
    the occurrences of [sep].  The result is never empty. *)
Fixpoint Split (s : string) (sep : ascii) : list string :=
  match s with
  | EmptyString => [EmptyString]
  | String c s' =>
    if Ascii.eqb c sep then EmptyString :: Split s' sep
    else match Split s' sep with
         | part :: parts => String c part :: parts
         | [] => [String c EmptyString]
         end
  end.

(** The loop of [indexFunc s unicode.IsSpace false] followed by the
    slicing of [TrimLeftFunc]: drop runes from the front while they are
    white space. *)
Fixpoint trimLeft (fuel : nat) (s : list ascii) : list ascii :=
  match fuel with
  | O => s
  | S fuel' =>
    let '(r, size) := utf8.DecodeRuneInString (map Go.byte s) in
    match size with
    | O => s
    | _ => if unicode.IsSpace r then trimLeft fuel' (skipn size s) else s
    end
  end.

(** The loop of [lastIndexFunc s unicode.IsSpace false] followed by the
    slicing of [TrimRightFunc]: drop runes from the back while they are
    white space. *)
Fixpoint trimRight (fuel : nat) (s : list ascii) : list ascii :=
  match fuel with
  | O => s
  | S fuel' =>
    let '(r, size) := utf8.DecodeLastRuneInString (map Go.byte s) in
    match size with
    | O => s
    | _ =>
      if unicode.IsSpace r
      then trimRight fuel' (firstn (List.length s - size) s)
      else s
    end
  end.

(** [strings.TrimSpace s]: [s] without its leading and trailing white
    space, as defined by Unicode. *)
Definition TrimSpace (s : string) : string :=
  let l := list_ascii_of_string s in
  let l := trimLeft (List.length l) l in
  string_of_list_ascii (trimRight (List.length l) l).

End strings.

(** ** Package strconv *)

Module strconv.

Inductive NumError : Type := ErrSyntax | ErrRange.

Definition intSize : Z := 64.
Definition maxUint64 : Z := 2 ^ 64 - 1.

(** [lower c] is [c | ('x' - 'X')]. *)
Definition lower (c : Z) : Z := Z.lor c 32.

(** The digit loop of [ParseUint s 10 0]; [n] is the value read so far. *)
Fixpoint parseUintLoop (n : Z) (s : list Z) : Z * option NumError :=
  match s with
  | [] => (n, None)
  | c :: s' =>
    let cutoff := maxUint64 / 10 + 1 in
    let maxVal := Go.wrapU64 (Z.shiftl 1 intSize - 1) in
    let d :=
      if (48 <=? c) && (c <=? 57) then Some (c - 48)
      else if (97 <=? lower c) && (lower c <=? 122)
           then Some ((lower c - 97 + 10) mod 256)
           else None in
    match d with
    | None => (0, Some ErrSyntax)
    | Some d =>
      if 10 <=? d then (0, Some ErrSyntax)
      else if cutoff <=? n then (maxVal, Some ErrRange)
      else
        let n' := Go.wrapU64 (n * 10) in
        let n1 := Go.wrapU64 (n' + d) in
        if (n1 <? n') || (maxVal <? n1) then (maxVal, Some ErrRange)
        else parseUintLoop n1 s'
    end
  end.

(** [strconv.ParseUint s 10 0]. *)
Definition ParseUint (s : list Z) : Z * option NumError :=
  match s with
  | [] => (0, Some ErrSyntax)
  | _ => parseUintLoop 0 s
  end.

(** [strconv.ParseInt s 10 0]: an optional sign followed by digits; a
    value out of range is reported with the nearest bound of [int64]. *)
Definition ParseInt (s : list Z) : Z * option NumError :=
  match s with
  | [] => (0, Some ErrSyntax)
  | c :: s' =>
    let '(neg, body) :=
      if c =? 43 then (false, s')
      else if c =? 45 then (true, s')
      else (false, s) in
    match ParseUint body with
    | (_, Some ErrSyntax) => (0, Some ErrSyntax)
    | (un, _) =>
      let cutoff := Z.shiftl 1 (intSize - 1) in
      if negb neg && (cutoff <=? un) then (cutoff - 1, Some ErrRange)
      else if neg && (cutoff <? un) then (- cutoff, Some ErrRange)
      else (if neg then Go.wrap64 (- un) else Go.wrap64 un, None)
    end
  end.

(** [strconv.Atoi s], which is [ParseInt s 10 0] converted to [int]. *)
Definition Atoi (s : string) : Z * option NumError :=
  ParseInt (Go.bytes s).

End strconv.

(** ** Package math/rand *)

Module rand.

(** The shared source, seen as the raw non-negative value it yields at
    the next draw. *)
Definition Source : Type := N.

(** [rand.Intn n]: a number of [[0, n)]; a panic when [n <= 0]. *)
Definition Intn (src : Source) (n : Z) : Go.outcome Z :=
  if n <=? 0 then Go.Panics (Go.InvalidArgument "invalid argument to Intn")
  else Go.Returns (Z.of_N src mod n).

End rand.

(** ** Package time *)

Module time.

(** [time.Duration]: a count of nanoseconds in an [int64]. *)
Definition Duration : Type := Z.

Definition Millisecond : Duration := 1000000.
Definition Second : Duration := 1000000000.

(** The conversion [time.Duration(n)] of an [int]. *)
Definition ofInt (n : Z) : Duration := n.

(** The product of two durations, in [int64]. *)
Definition mul (a b : Duration) : Duration := Go.wrap64 (a * b).

End time.

(** ** Package gocql: what the policy sees of the driver *)

Module gocql.

Inductive RetryType : Type := Retry | RetryNextHost | Ignore | Rethrow.

(** A query that can be retried; the policy only asks for the number of
    attempts made so far. *)
Class RetryableQuery (Q : Type) : Type := { Attempts : Q -> Z }.

(** The errors handed to a retry policy: the three request errors the
    policy tells apart, and any other error with its [Error()] text. *)
Inductive error : Type :=
| RequestErrReadTimeout (message : string)
| RequestErrUnavailable (message : string)
| RequestErrWriteTimeout (message : string)
| otherError (message : string).

Definition Error (err : error) : string :=
  match err with
  | RequestErrReadTimeout m | RequestErrUnavailable m
  | RequestErrWriteTimeout m | otherError m => m
  end.

End gocql.

(** ** Package retry: the policy *)

Import Go.

(** [CosmosRetryPolicy]: the three configuration fields and the number of
    attempts recorded by the last call of [Attempt]. *)
Record CosmosRetryPolicy : Type := mkCosmosRetryPolicy {
  MaxRetryCount : Z;
  FixedBackOffTimeMs : Z;
  GrowingBackOffTimeMs : Z;
  numAttempts : Z
}.

Definition defaultGrowingBackOffTimeMs : Z := 1000.
Definition defaultFixedBackOffTimeMs : Z := 5000.

(** [NewCosmosRetryPolicy]: the default back-off times; [numAttempts] is
    left at the zero value of [int]. *)
Definition NewCosmosRetryPolicy (maxRetryCount : Z) : CosmosRetryPolicy :=
  {| MaxRetryCount := maxRetryCount;
     FixedBackOffTimeMs := defaultFixedBackOffTimeMs;
     GrowingBackOffTimeMs := defaultGrowingBackOffTimeMs;
     numAttempts := 0 |}.

(** [Attempt]: the policy after the call and the decision. *)
Definition Attempt {Q : Type} `{gocql.RetryableQuery Q}
    (crp : CosmosRetryPolicy) (rq : Q) : CosmosRetryPolicy * bool :=
  let crp' :=
    {| MaxRetryCount := MaxRetryCount crp;
       FixedBackOffTimeMs := FixedBackOffTimeMs crp;
       GrowingBackOffTimeMs := GrowingBackOffTimeMs crp;
       numAttempts := gocql.Attempts rq |} in
  (crp',
   (gocql.Attempts rq <=? MaxRetryCount crp') || (MaxRetryCount crp' =? -1)).

Definition rateLimitingErrPart : string := "TooManyRequests (429)".
Definition retryAfterKey : string := "RetryAfterMs".

Definition growingBackOffSaltMillis : Z := 2000.

(** [getRetryAfterMs]: the back-off for an error message, [-1] when the
    message is not a rate-limiting one.  [src] is the state of the random
    source when the call is made. *)
Definition getRetryAfterMs (crp : CosmosRetryPolicy) (src : rand.Source)
    (errMsg : string) : outcome time.Duration :=
  if strings.Contains errMsg rateLimitingErrPart then
    let parts := strings.Split errMsg "," in
    retryPart <- index parts 1 ;;
    let retryAfterMs := strings.Split retryPart "=" in
    key <- index retryAfterMs 0 ;;
    if String.eqb (strings.TrimSpace key) retryAfterKey then
      value <- index retryAfterMs 1 ;;
      let '(r, _) := strconv.Atoi value in
      Returns (time.mul (time.ofInt r) time.Millisecond)
    else if -1 <? MaxRetryCount crp then
      Returns (time.mul (time.ofInt (FixedBackOffTimeMs crp)) time.Millisecond)
    else
      salt <- rand.Intn src growingBackOffSaltMillis ;;
      Returns
        (time.mul
           (time.ofInt
              (wrap64 (wrap64 (GrowingBackOffTimeMs crp * numAttempts crp)
                       + salt)))
           time.Millisecond)
  else Returns (-1).

(** What a call of [GetRetryType] leaves behind: the verdict and the
    durations passed to [time.Sleep], in order. *)
Record verdict : Type := mkVerdict {
  retryType : gocql.RetryType;
  slept : list time.Duration
}.

(** [GetRetryType]: retry at once on the three request errors; for any
    other error, rethrow unless the message is a rate-limiting one, in
    which case sleep for the back-off and retry. *)
Definition GetRetryType (crp : CosmosRetryPolicy) (src : rand.Source)
    (err : gocql.error) : outcome verdict :=
  match err with
  | gocql.RequestErrReadTimeout _ => Returns (mkVerdict gocql.Retry [])
  | gocql.RequestErrUnavailable _ => Returns (mkVerdict gocql.Retry [])
  | gocql.RequestErrWriteTimeout _ => Returns (mkVerdict gocql.Retry [])
  | gocql.otherError _ =>
    retryAfterMs <- getRetryAfterMs crp src (gocql.Error err) ;;
    if retryAfterMs =? -1 then Returns (mkVerdict gocql.Rethrow [])
    else Returns (mkVerdict gocql.Retry [retryAfterMs])
  end.

(** The verdict of a call that returned, for the comparisons of the tests. *)
Definition retryType_of (o : outcome verdict) : option gocql.RetryType :=
  match o with
  | Returns v => Some (retryType v)
  | Panics _ => None
  end.

(** *** The test double and the messages of the test suite *)

Inductive MockRetryableQuery : Type := mkMockRetryableQuery.

#[export] Instance MockRetryableQuery_RetryableQuery
  : gocql.RetryableQuery MockRetryableQuery := {| gocql.Attempts := fun _ => 0 |}.

(** The string made of the one byte [n]. *)
Definition byteString (n : nat) : string := String (ascii_of_nat n) EmptyString.

Definition nl : string := byteString 10.
Definition tab : string := byteString 9.
Definition quote : string := byteString 34.

(** The details of the service's message, up to their first comma. *)
Definition errorDetailsHead : string :=
  ("Additional details='Response status code does not indicate success: "
   ++ "TooManyRequests (429); Substatus: 3200; "
   ++ "ActivityId: c268afb6-7367-4ff8-b06b-b7e2d1269f55; Reason: ({" ++ nl
   ++ tab ++ quote ++ "Errors" ++ quote ++ ": [" ++ nl
   ++ tab ++ "  " ++ quote
   ++ "Request rate is large. More Request Units may be needed")%string.

Definition errorDetails : string :=
  (errorDetailsHead
   ++ ", so no changes were made. Please retry this request later. "
   ++ "Learn more: http://aka.ms/cosmosdb-error-429" ++ quote ++ nl
   ++ tab ++ "]" ++ nl
   ++ "  });")%string.

Definition rateLimitedErrMsg : string :=
  ("Request rate is large: "
   ++ "ActivityID=c268afb6-7367-4ff8-b06b-b7e2d1269f55, RetryAfterMs=42, "
   ++ errorDetails)%string.

Definition rateLimitedErrMsgWithoutRetryAfterMs : string :=
  ("Request rate is large: "
   ++ "ActivityID=c268afb6-7367-4ff8-b06b-b7e2d1269f55, "
   ++ errorDetails)%string.

(** ** Vocabulary of the specification

    The notions the specification uses to describe error messages, defined
    on their own (without [strings.Split] or [strconv.Atoi]) and related
    to the library functions by the lemmas below. *)

(** The text of [s] before the first [sep]; all of [s] when there is none. *)
Fixpoint before (sep : ascii) (s : string) : string :=
  match s with
  | EmptyString => EmptyString
  | String c s' =>
    if Ascii.eqb c sep then EmptyString else String c (before sep s')
  end.

(** The text of [s] after the first [sep], when there is one. *)
Fixpoint after (sep : ascii) (s : string) : option string :=
  match s with
  | EmptyString => None
  | String c s' => if Ascii.eqb c sep then Some s' else after sep s'
  end.

(** The message carries the rate-limiting marker. *)
Definition rateLimited (errMsg : string) : Prop :=
  strings.Contains errMsg rateLimitingErrPart = true.

(** The second comma-delimited fragment of a message. *)
Definition secondFragment (errMsg : string) : option string :=
  option_map (before ",") (after "," errMsg).

(** The key of a [key=value] fragment: the text before the first ["="]. *)
Definition fragmentKey (fragment : string) : string := before "=" fragment.

(** The value of a [key=value] fragment: the text between the first ["="]
    and the next one (or the end of the fragment). *)
Definition fragmentValue (fragment : string) : option string :=
  option_map (before "=") (after "=" fragment).

(** The fragment carries the key [RetryAfterMs], up to surrounding space. *)
Definition carriesRetryAfterKey (fragment : string) : bool :=
  String.eqb (strings.TrimSpace (fragmentKey fragment)) retryAfterKey.

(** The duration returned for an error that is not a rate-limiting one. *)
Definition notRateLimited : time.Duration := -1.

(** A duration of exactly [v] milliseconds, as a number of nanoseconds. *)
Definition milliseconds (v : Z) : Z := v * 1000000.

(** The largest number of milliseconds an [int64] of nanoseconds holds. *)
Definition maxMilliseconds : Z := 9223372036854.

Definition isDigit (c : Z) : bool := (48 <=? c) && (c <=? 57).

(** The longest run of decimal digits at the front of [s]: its value,
    continuing from [acc], and the bytes that follow it. *)
Fixpoint leadingDigits (acc : Z) (s : list Z) : Z * list Z :=
  match s with
  | [] => (acc, [])
  | c :: s' =>
    if isDigit c then leadingDigits (acc * 10 + (c - 48)) s' else (acc, s)
  end.

(** The text without one leading sign, and whether that sign was [-]. *)
Definition unsigned (s : list Z) : bool * list Z :=
  match s with
  | c :: s' =>
    if c =? 43 then (false, s') else if c =? 45 then (true, s') else (false, s)
  | [] => (false, [])
  end.

(** The integer a text denotes in decimal: an optional sign followed by
    one or more digits.  There is no bound on the number. *)
Definition decimalValue (s : string) : option Z :=
  let '(neg, body) := unsigned (Go.bytes s) in
  match body, leadingDigits 0 body with
  | _ :: _, (v, []) => Some (if neg then - v else v)
  | _, _ => None
  end.

(** A text that is not a decimal integer and whose defect is met before
    the digits read so far leave the range of [uint64]: it is empty after
    the optional sign, or a byte that is not a digit follows digits that
    denote at most [2^64 - 1]. *)
Definition malformedInteger (s : string) : Prop :=
  let '(_, body) := unsigned (Go.bytes s) in
  body = [] \/
  (snd (leadingDigits 0 body) <> [] /\
   fst (leadingDigits 0 body) <= strconv.maxUint64).

(** ** Vocabulary for sequences of calls and for the wire format *)

(** The policy left by calling [Attempt] on each query of [qs] in turn. *)
Definition afterAttempts {Q : Type} `{gocql.RetryableQuery Q}
    (crp : CosmosRetryPolicy) (qs : list Q) : CosmosRetryPolicy :=
  fold_left (fun c q => fst (Attempt c q)) qs crp.

(** The ASCII white space: tab, line feed, vertical tab, form feed,
    carriage return and space. *)
Definition asciiSpace (c : ascii) : bool :=
  let b := Go.byte c in
  (b =? 9) || (b =? 10) || (b =? 11) || (b =? 12) || (b =? 13) || (b =? 32).

(** A text made of ASCII white space only. *)
Fixpoint blank (s : string) : bool :=
  match s with
  | EmptyString => true
  | String c s' => asciiSpace c && blank s'
  end.

(** The byte [sep] does not occur in [s]. *)
Definition free (sep : ascii) (s : string) : Prop := after sep s = None.

(** A message in the format of the service: some text without a comma, a
    second fragment [RetryAfterMs=value] with blanks around the key, then
    the details, which carry the marker. *)
Definition rateLimitMessage (head pad1 pad2 value details1 details2 : string)
  : string :=
  (head ++ "," ++ (pad1 ++ retryAfterKey ++ pad2 ++ "=" ++ value) ++ ","
   ++ details1 ++ rateLimitingErrPart ++ details2)%string.

(** * Properties *)

(** ** The library functions on small inputs *)

Example Split_examples :
  strings.Split "a,b,c" "," = ["a"; "b"; "c"]%string /\
  strings.Split "a,,c," "," = ["a"; ""; "c"; ""]%string /\
  strings.Split "no comma" "," = ["no comma"]%string /\
  strings.Split "" "," = [""]%string.
Proof. repeat split. Qed.

Example Contains_examples :
  strings.Contains "code: TooManyRequests (429);" rateLimitingErrPart = true /\
  strings.Contains "TooManyRequests (42" rateLimitingErrPart = false /\
  strings.Contains "" "" = true.
Proof. repeat split. Qed.

(** White space is trimmed at both ends and kept inside; U+00A0 (bytes
    194 160) and U+2000 (bytes 226 128 128) are white space, a stray 194
    is not. *)
Example TrimSpace_examples :
  strings.TrimSpace (tab ++ "  Retry AfterMs " ++ nl) = "Retry AfterMs"%string /\
  strings.TrimSpace
    (byteString 194 ++ byteString 160 ++ "key"
     ++ byteString 226 ++ byteString 128 ++ byteString 128) = "key"%string /\
  strings.TrimSpace (byteString 194 ++ " key") = (byteString 194 ++ " key")%string /\
  strings.TrimSpace "   " = ""%string.
Proof. repeat split. Qed.

Example Atoi_examples :
  strconv.Atoi "42" = (42, None) /\
  strconv.Atoi "+0042" = (42, None) /\
  strconv.Atoi "-5" = (-5, None) /\
  strconv.Atoi "" = (0, Some strconv.ErrSyntax) /\
  strconv.Atoi " 42" = (0, Some strconv.ErrSyntax) /\
  strconv.Atoi "4x2" = (0, Some strconv.ErrSyntax) /\
  strconv.Atoi "-9223372036854775808" = (minInt64, None) /\
  strconv.Atoi "9223372036854775808" = (maxInt64, Some strconv.ErrRange) /\
  strconv.Atoi "-9223372036854775809" = (minInt64, Some strconv.ErrRange).
Proof. repeat split. Qed.

(** ** Machine integers *)

Section MachineIntegers.

Lemma wrap64_small (x : Z) :
  minInt64 <= x <= maxInt64 -> wrap64 x = x.
Proof.
  unfold wrap64, minInt64, maxInt64. intros Hx.
  rewrite Z.mod_small; lia.
Qed.

Lemma wrap64_range (x : Z) : minInt64 <= wrap64 x <= maxInt64.
Proof.
  unfold wrap64, minInt64, maxInt64.
  pose proof (Z.mod_pos_bound (x + 2 ^ 63) (2 ^ 64) ltac:(lia)). lia.
Qed.

(** A wrapped integer is congruent to the exact one modulo 64 (a
    divisor of [2^64]). *)
Lemma wrap64_mod64 (x : Z) : wrap64 x mod 64 = x mod 64.
Proof.
  unfold wrap64.
  pose proof (Z.div_mod (x + 2 ^ 63) (2 ^ 64) ltac:(lia)) as Hdm.
  replace ((x + 2 ^ 63) mod 2 ^ 64 - 2 ^ 63)
    with (x + (- (288230376151711744 * ((x + 2 ^ 63) / 2 ^ 64))) * 64)
    by (change (2 ^ 64) with (64 * 288230376151711744) in *; lia).
  apply Z.mod_add. lia.
Qed.

(** A number of milliseconds, however it wraps around, is a multiple of
    64 nanoseconds. *)
Lemma mul_Millisecond_mod64 (x : Z) :
  time.mul (time.ofInt x) time.Millisecond mod 64 = 0.
Proof.
  unfold time.mul, time.ofInt, time.Millisecond.
  rewrite wrap64_mod64.
  replace (x * 1000000) with (0 + (x * 15625) * 64) by lia.
  rewrite Z.mod_add by lia. reflexivity.
Qed.

Lemma mul_Millisecond_not_sentinel (x : Z) :
  time.mul (time.ofInt x) time.Millisecond <> notRateLimited.
Proof.
  intros Heq. pose proof (mul_Millisecond_mod64 x) as Hm.
  rewrite Heq in Hm. discriminate Hm.
Qed.

(** Within [maxMilliseconds] the conversion to nanoseconds is exact. *)
Lemma mul_Millisecond_exact (x : Z) :
  - maxMilliseconds <= x <= maxMilliseconds ->
  time.mul (time.ofInt x) time.Millisecond = milliseconds x.
Proof.
  unfold time.mul, time.ofInt, time.Millisecond, milliseconds, maxMilliseconds.
  intros Hx. apply wrap64_small. unfold minInt64, maxInt64. lia.
Qed.

End MachineIntegers.

(** ** Splitting at a separator *)

Section Splitting.

Variable sep : ascii.

Lemma Split_before_after (s : string) :
  strings.Split s sep =
  before sep s ::
    match after sep s with
    | Some rest => strings.Split rest sep
    | None => []
    end.
Proof.
  induction s as [|c s IH]; simpl; [reflexivity|].
  destruct (Ascii.eqb c sep); [reflexivity|].
  rewrite IH. reflexivity.
Qed.

Lemma index_Split_0 (s : string) :
  index (strings.Split s sep) 0 = Returns (before sep s).
Proof. rewrite Split_before_after. reflexivity. Qed.

Lemma index_Split_1 (s : string) :
  index (strings.Split s sep) 1 =
  match after sep s with
  | Some rest => Returns (before sep rest)
  | None => Panics (IndexOutOfRange 1 1)
  end.
Proof.
  rewrite Split_before_after.
  destruct (after sep s) as [rest|]; [|reflexivity].
  rewrite Split_before_after. reflexivity.
Qed.

Lemma before_app (a b : string) :
  after sep a = None ->
  before sep (a ++ String sep b) = a.
Proof.
  induction a as [|c a IH]; simpl; intros Ha.
  - rewrite Ascii.eqb_refl. reflexivity.
  - destruct (Ascii.eqb c sep); [discriminate|].
    rewrite IH by assumption. reflexivity.
Qed.

Lemma after_app (a b : string) :
  after sep a = None ->
  after sep (a ++ String sep b) = Some b.
Proof.
  induction a as [|c a IH]; simpl; intros Ha.
  - rewrite Ascii.eqb_refl. reflexivity.
  - destruct (Ascii.eqb c sep); [discriminate|]. auto.
Qed.

End Splitting.

(** ** The shape of [getRetryAfterMs] *)

Section Shape.

Variable crp : CosmosRetryPolicy.
Variable src : rand.Source.

(** [getRetryAfterMs] by cases on the vocabulary of the specification. *)
Lemma getRetryAfterMs_cases (errMsg : string) :
  getRetryAfterMs crp src errMsg =
  if strings.Contains errMsg rateLimitingErrPart then
    match secondFragment errMsg with
    | None => Panics (IndexOutOfRange 1 1)
    | Some fragment =>
      if carriesRetryAfterKey fragment then
        match fragmentValue fragment with
        | None => Panics (IndexOutOfRange 1 1)
        | Some value =>
          Returns
            (time.mul (time.ofInt (fst (strconv.Atoi value))) time.Millisecond)
        end
      else if -1 <? MaxRetryCount crp then
        Returns
          (time.mul (time.ofInt (FixedBackOffTimeMs crp)) time.Millisecond)
      else
        Returns
          (time.mul
             (time.ofInt
                (wrap64 (wrap64 (GrowingBackOffTimeMs crp * numAttempts crp)
                         + Z.of_N src mod growingBackOffSaltMillis)))
             time.Millisecond)
    end
  else Returns notRateLimited.
Proof.
  unfold getRetryAfterMs, secondFragment.
  destruct (strings.Contains errMsg rateLimitingErrPart); [|reflexivity].
  rewrite index_Split_1.
  destruct (after "," errMsg) as [rest|]; simpl; [|reflexivity].
  rewrite index_Split_0. simpl.
  unfold carriesRetryAfterKey, fragmentKey, fragmentValue.
  destruct (String.eqb _ retryAfterKey).
  - rewrite index_Split_1.
    destruct (after "=" (before "," rest)) as [v|]; simpl; [|reflexivity].
    destruct (strconv.Atoi (before "=" v)); reflexivity.
  - destruct (-1 <? MaxRetryCount crp); reflexivity.
Qed.

(** The jitter: what [rand.Intn growingBackOffSaltMillis] returns. *)
Lemma salt_bounds :
  0 <= Z.of_N src mod growingBackOffSaltMillis < growingBackOffSaltMillis.
Proof. apply Z.mod_pos_bound. reflexivity. Qed.

End Shape.

(** ** Reading integers: [strconv.Atoi] against the decimal notation *)

Section ReadingIntegers.

Lemma maxVal_maxUint64 :
  wrapU64 (Z.shiftl 1 strconv.intSize - 1) = strconv.maxUint64.
Proof. reflexivity. Qed.

Lemma cutoff_value : strconv.maxUint64 / 10 + 1 = 1844674407370955162.
Proof. reflexivity. Qed.

(** One turn of the digit loop on a digit that does not overflow. *)
Lemma parseUintLoop_digit (n c : Z) (s : list Z) :
  isDigit c = true -> 0 <= n ->
  n * 10 + (c - 48) <= strconv.maxUint64 ->
  strconv.parseUintLoop n (c :: s) =
  strconv.parseUintLoop (n * 10 + (c - 48)) s.
Proof.
  intros Hc Hn Hmax. cbn [strconv.parseUintLoop].
  rewrite maxVal_maxUint64, cutoff_value.
  unfold isDigit in Hc. rewrite Hc.
  apply andb_prop in Hc as [Hlo Hhi].
  apply Z.leb_le in Hlo, Hhi.
  unfold strconv.maxUint64 in *. cbv zeta.
  assert (H10 : (10 <=? c - 48) = false) by (apply Z.leb_gt; lia).
  assert (Hcut : (1844674407370955162 <=? n) = false) by (apply Z.leb_gt; lia).
  rewrite H10, Hcut. unfold wrapU64.
  rewrite (Z.mod_small (n * 10)) by lia.
  rewrite (Z.mod_small (n * 10 + (c - 48))) by lia.
  assert (Hlt : (n * 10 + (c - 48) <? n * 10) = false) by (apply Z.ltb_ge; lia).
  assert (Hmx : (2 ^ 64 - 1 <? n * 10 + (c - 48)) = false) by (apply Z.ltb_ge; lia).
  rewrite Hlt, Hmx. reflexivity.
Qed.

(** One turn of the digit loop on a byte that is not a digit. *)
Lemma parseUintLoop_not_digit (n c : Z) (s : list Z) :
  isDigit c = false ->
  strconv.parseUintLoop n (c :: s) = (0, Some strconv.ErrSyntax).
Proof.
  intros Hc. cbn [strconv.parseUintLoop].
  unfold isDigit in Hc. rewrite Hc. cbv zeta.
  destruct ((97 <=? strconv.lower c) && (strconv.lower c <=? 122)) eqn:Hl;
    [|reflexivity].
  apply andb_prop in Hl as [Hlo Hhi]. apply Z.leb_le in Hlo, Hhi.
  rewrite Z.mod_small by lia.
  assert (H10 : (10 <=? strconv.lower c - 97 + 10) = true) by (apply Z.leb_le; lia).
  rewrite H10. reflexivity.
Qed.

Lemma leadingDigits_ge (s : list Z) :
  forall acc, 0 <= acc -> acc <= fst (leadingDigits acc s).
Proof.
  induction s as [|c s IH]; intros acc Hacc; simpl; [lia|].
  destruct (isDigit c) eqn:Hc; simpl; [|lia].
  unfold isDigit in Hc. apply andb_prop in Hc as [Hlo Hhi].
  apply Z.leb_le in Hlo, Hhi.
  specialize (IH (acc * 10 + (c - 48)) ltac:(lia)). lia.
Qed.

(** The loop reads a run of digits exactly, as long as it fits [uint64]. *)
Lemma parseUintLoop_digits (s : list Z) :
  forall n, 0 <= n ->
  snd (leadingDigits n s) = [] ->
  fst (leadingDigits n s) <= strconv.maxUint64 ->
  strconv.parseUintLoop n s = (fst (leadingDigits n s), None).
Proof.
  induction s as [|c s IH]; intros n Hn Hrest Hmax; [reflexivity|].
  simpl in Hrest, Hmax |- *. destruct (isDigit c) eqn:Hc; [|discriminate].
  pose proof Hc as Hc'. unfold isDigit in Hc'.
  apply andb_prop in Hc' as [Hlo Hhi]. apply Z.leb_le in Hlo, Hhi.
  pose proof (leadingDigits_ge s (n * 10 + (c - 48)) ltac:(lia)) as Hge.
  change (strconv.parseUintLoop n (c :: s) =
          (fst (leadingDigits (n * 10 + (c - 48)) s), None)).
  rewrite parseUintLoop_digit by (assumption || lia).
  apply IH; (assumption || lia).
Qed.

(** The loop rejects a byte that is not a digit, when the digits before
    it fit [uint64]. *)
Lemma parseUintLoop_syntax (s : list Z) :
  forall n, 0 <= n ->
  snd (leadingDigits n s) <> [] ->
  fst (leadingDigits n s) <= strconv.maxUint64 ->
  strconv.parseUintLoop n s = (0, Some strconv.ErrSyntax).
Proof.
  induction s as [|c s IH]; intros n Hn Hrest Hmax; [now contradiction Hrest|].
  simpl in Hrest, Hmax. destruct (isDigit c) eqn:Hc.
  - pose proof Hc as Hc'. unfold isDigit in Hc'.
    apply andb_prop in Hc' as [Hlo Hhi]. apply Z.leb_le in Hlo, Hhi.
    pose proof (leadingDigits_ge s (n * 10 + (c - 48)) ltac:(lia)) as Hge.
    rewrite parseUintLoop_digit by (assumption || lia).
    apply IH; (assumption || lia).
  - apply parseUintLoop_not_digit. assumption.
Qed.

(** [ParseInt] takes the sign off the way [unsigned] does. *)
Lemma ParseInt_unsigned (s : list Z) :
  s <> [] ->
  strconv.ParseInt s =
  let neg := fst (unsigned s) in
  match strconv.ParseUint (snd (unsigned s)) with
  | (_, Some strconv.ErrSyntax) => (0, Some strconv.ErrSyntax)
  | (un, _) =>
    if negb neg && (2 ^ 63 <=? un) then (2 ^ 63 - 1, Some strconv.ErrRange)
    else if neg && (2 ^ 63 <? un) then (- 2 ^ 63, Some strconv.ErrRange)
    else (if neg then wrap64 (- un) else wrap64 un, None)
  end.
Proof.
  destruct s as [|c s]; [congruence|]. intros _.
  unfold strconv.ParseInt, unsigned.
  destruct (c =? 43); [reflexivity|]. destruct (c =? 45); reflexivity.
Qed.

(** Within [int64], [Atoi] reads a decimal integer as the number it
    denotes and reports no error. *)
Lemma Atoi_decimalValue (s : string) (v : Z) :
  decimalValue s = Some v ->
  minInt64 <= v <= maxInt64 ->
  strconv.Atoi s = (v, None).
Proof.
  unfold decimalValue, strconv.Atoi. intros Hdec Hv.
  destruct (bytes s) as [|c0 l0] eqn:Hb; [discriminate Hdec|].
  rewrite ParseInt_unsigned by discriminate.
  destruct (unsigned (c0 :: l0)) as [neg body]. cbn [fst snd].
  destruct body as [|c body]; [discriminate Hdec|].
  destruct (leadingDigits 0 (c :: body)) as [u rest] eqn:Hld.
  destruct rest; [|discriminate Hdec].
  injection Hdec as Hdec.
  pose proof (leadingDigits_ge (c :: body) 0 ltac:(lia)) as Hge.
  rewrite Hld in Hge. cbn [fst] in Hge.
  unfold minInt64, maxInt64 in Hv.
  assert (Hu : u <= strconv.maxUint64)
    by (unfold strconv.maxUint64; destruct neg; lia).
  unfold strconv.ParseUint.
  rewrite parseUintLoop_digits by (rewrite ?Hld; simpl; (reflexivity || lia)).
  rewrite Hld. cbn [fst]. cbv zeta.
  destruct neg; cbn [negb andb].
  - assert (Hc : (2 ^ 63 <? u) = false) by (apply Z.ltb_ge; lia).
    rewrite Hc. rewrite wrap64_small by (unfold minInt64, maxInt64; lia).
    subst v. reflexivity.
  - assert (Hc : (2 ^ 63 <=? u) = false) by (apply Z.leb_gt; lia).
    rewrite Hc. rewrite wrap64_small by (unfold minInt64, maxInt64; lia).
    subst v. reflexivity.
Qed.

(** [Atoi] reads a malformed integer as zero, with a syntax error. *)
Lemma Atoi_malformedInteger (s : string) :
  malformedInteger s ->
  strconv.Atoi s = (0, Some strconv.ErrSyntax).
Proof.
  unfold malformedInteger, strconv.Atoi.
  destruct (bytes s) as [|c0 l0] eqn:Hb; [reflexivity|].
  rewrite ParseInt_unsigned by discriminate.
  destruct (unsigned (c0 :: l0)) as [neg body]. cbn [fst snd].
  intros [Hempty | [Hrest Hmax]].
  - subst body. reflexivity.
  - destruct body as [|c body]; [now contradiction Hrest|].
    unfold strconv.ParseUint.
    rewrite parseUintLoop_syntax by (assumption || lia). reflexivity.
Qed.

End ReadingIntegers.

(** ** The branches of [getRetryAfterMs] on a rate-limiting message *)

Section Branches.

Variable crp : CosmosRetryPolicy.
Variable src : rand.Source.
Variables errMsg fragment : string.
Hypothesis marker : rateLimited errMsg.
Hypothesis second : secondFragment errMsg = Some fragment.

(** With the key: the number [Atoi] reads, whatever error it reports. *)
Lemma backoff_with_key (value : string) :
  carriesRetryAfterKey fragment = true ->
  fragmentValue fragment = Some value ->
  getRetryAfterMs crp src errMsg =
  Returns (time.mul (time.ofInt (fst (strconv.Atoi value))) time.Millisecond).
Proof.
  intros Hkey Hval. rewrite getRetryAfterMs_cases.
  unfold rateLimited in marker. rewrite marker, second, Hkey, Hval.
  reflexivity.
Qed.


(** Without the key, [MaxRetryCount] above [-1]: the fixed back-off. *)
Lemma backoff_fixed :
  carriesRetryAfterKey fragment = false ->
  -1 < MaxRetryCount crp ->
  getRetryAfterMs crp src errMsg =
  Returns (time.mul (time.ofInt (FixedBackOffTimeMs crp)) time.Millisecond).
Proof.
  intros Hkey Hmax. rewrite getRetryAfterMs_cases.
  unfold rateLimited in marker. rewrite marker, second, Hkey.
  apply Z.ltb_lt in Hmax. rewrite Hmax. reflexivity.
Qed.

(** Without the key, [MaxRetryCount] at most [-1]: the growing back-off
    with the jitter drawn from the source. *)
Lemma backoff_growing :
  carriesRetryAfterKey fragment = false ->
  MaxRetryCount crp <= -1 ->
  getRetryAfterMs crp src errMsg =
  Returns
    (time.mul
       (time.ofInt
          (wrap64 (wrap64 (GrowingBackOffTimeMs crp * numAttempts crp)
                   + Z.of_N src mod growingBackOffSaltMillis)))
       time.Millisecond).
Proof.
  intros Hkey Hmax. rewrite getRetryAfterMs_cases.
  unfold rateLimited in marker. rewrite marker, second, Hkey.
  assert (Hlt : (-1 <? MaxRetryCount crp) = false) by (apply Z.ltb_ge; lia).
  rewrite Hlt. reflexivity.
Qed.

End Branches.

(** The growing back-off is exact as long as nothing overflows. *)
Lemma growing_exact (g j : Z) :
  - maxMilliseconds <= g <= maxMilliseconds - 1999 ->
  0 <= j < growingBackOffSaltMillis ->
  time.mul (time.ofInt (wrap64 (wrap64 g + j))) time.Millisecond =
  milliseconds (g + j).
Proof.
  unfold maxMilliseconds, growingBackOffSaltMillis. intros Hg Hj.
  rewrite (wrap64_small g) by (unfold minInt64, maxInt64; lia).
  rewrite wrap64_small by (unfold minInt64, maxInt64; lia).
  apply mul_Millisecond_exact. unfold maxMilliseconds. lia.
Qed.

(** A rate-limiting message never yields the duration kept for the
    errors that are not rate-limiting ones. *)
Lemma rate_limited_not_sentinel (crp : CosmosRetryPolicy) (src : rand.Source)
    (errMsg : string) (d : time.Duration) :
  rateLimited errMsg ->
  getRetryAfterMs crp src errMsg = Returns d ->
  d <> notRateLimited.
Proof.
  intros Hm. rewrite getRetryAfterMs_cases.
  unfold rateLimited in Hm. rewrite Hm.
  destruct (secondFragment errMsg) as [fragment|]; [|discriminate].
  destruct (carriesRetryAfterKey fragment).
  - destruct (fragmentValue fragment) as [value|]; [|discriminate].
    intros [= <-]. apply mul_Millisecond_not_sentinel.
  - destruct (-1 <? MaxRetryCount crp); intros [= <-];
      apply mul_Millisecond_not_sentinel.
Qed.

(** [getRetryAfterMs] panics exactly on the rate-limiting messages that
    have no second fragment, or whose second fragment carries the key
    and has no ["="] sign. *)
Lemma getRetryAfterMs_panics_iff (crp : CosmosRetryPolicy) (src : rand.Source)
    (errMsg : string) :
  (exists p, getRetryAfterMs crp src errMsg = Panics p) <->
  rateLimited errMsg /\
  match secondFragment errMsg with
  | None => True
  | Some fragment =>
    carriesRetryAfterKey fragment = true /\ fragmentValue fragment = None
  end.
Proof.
  rewrite getRetryAfterMs_cases. unfold rateLimited.
  destruct (strings.Contains errMsg rateLimitingErrPart).
  - destruct (secondFragment errMsg) as [fragment|].
    + destruct (carriesRetryAfterKey fragment).
      * destruct (fragmentValue fragment) as [value|].
        -- split; [intros [p Hp]; discriminate | intros [_ [_ Hv]]; discriminate].
        -- split; [auto | intros _; eexists; reflexivity].
      * destruct (-1 <? MaxRetryCount crp);
          (split; [intros [p Hp]; discriminate | intros [_ [Hk _]]; discriminate]).
    + split; [auto | intros _; eexists; reflexivity].
  - split; [intros [p Hp]; discriminate | intros [Hf _]; discriminate].
Qed.

(** ** The admission check *)

(** C1: for every policy and every retryable query, [Attempt] answers
    [true] exactly when the attempts made are at most [MaxRetryCount] or
    [MaxRetryCount] is [-1]; the policy it leaves has the attempts of the
    query in [numAttempts] and its three other fields unchanged. *)
Theorem Attempt_decides_and_records (Q : Type) (RQ : gocql.RetryableQuery Q)
    (crp : CosmosRetryPolicy) (rq : Q) :
  (snd (Attempt crp rq) = true <->
   gocql.Attempts rq <= MaxRetryCount crp \/ MaxRetryCount crp = -1) /\
  numAttempts (fst (Attempt crp rq)) = gocql.Attempts rq /\
  MaxRetryCount (fst (Attempt crp rq)) = MaxRetryCount crp /\
  FixedBackOffTimeMs (fst (Attempt crp rq)) = FixedBackOffTimeMs crp /\
  GrowingBackOffTimeMs (fst (Attempt crp rq)) = GrowingBackOffTimeMs crp.
Proof.
  unfold Attempt; cbn [fst snd MaxRetryCount FixedBackOffTimeMs
                         GrowingBackOffTimeMs numAttempts].
  repeat split; try reflexivity.
  - intros Hb. apply orb_prop in Hb as [Hle | Heq].
    + left. apply Z.leb_le. assumption.
    + right. apply Z.eqb_eq. assumption.
  - intros [Hle | Heq]; apply orb_true_iff.
    + left. apply Z.leb_le. assumption.
    + right. apply Z.eqb_eq. assumption.
Qed.

(** Asking again about the same query changes neither the answer nor the
    policy. *)
Lemma Attempt_idempotent (Q : Type) (RQ : gocql.RetryableQuery Q)
    (crp : CosmosRetryPolicy) (rq : Q) :
  Attempt (fst (Attempt crp rq)) rq = Attempt crp rq.
Proof. reflexivity. Qed.

(** The test suite's cases: the mock query, which has made no attempt, is
    admitted by an unbounded policy and by a policy bounded by 5. *)
Example TestRetryAllowed :
  snd (Attempt (NewCosmosRetryPolicy (-1)) mkMockRetryableQuery) = true /\
  snd (Attempt (NewCosmosRetryPolicy 5) mkMockRetryableQuery) = true.
Proof. split; reflexivity. Qed.

(** ** Panics *)

(** C2: the classification does not return on every error.  On a message
    that carries the marker and no comma, and on one whose second fragment
    carries the key and no ["="] sign, [getRetryAfterMs] indexes a slice
    of length 1 at 1 and panics, and so does [GetRetryType]. *)
Theorem getRetryAfterMs_panics_on_short_messages
    (crp : CosmosRetryPolicy) (src : rand.Source) :
  getRetryAfterMs crp src "TooManyRequests (429)"
    = Panics (IndexOutOfRange 1 1) /\
  GetRetryType crp src (gocql.otherError "TooManyRequests (429)")
    = Panics (IndexOutOfRange 1 1) /\
  getRetryAfterMs crp src "TooManyRequests (429), RetryAfterMs"
    = Panics (IndexOutOfRange 1 1) /\
  GetRetryType crp src (gocql.otherError "TooManyRequests (429), RetryAfterMs")
    = Panics (IndexOutOfRange 1 1).
Proof.
  assert (H1 : getRetryAfterMs crp src "TooManyRequests (429)"
               = Panics (IndexOutOfRange 1 1))
    by (rewrite getRetryAfterMs_cases; reflexivity).
  assert (H2 : getRetryAfterMs crp src "TooManyRequests (429), RetryAfterMs"
               = Panics (IndexOutOfRange 1 1))
    by (rewrite getRetryAfterMs_cases; reflexivity).
  split; [exact H1|].
  split; [unfold GetRetryType, gocql.Error; rewrite H1; reflexivity|].
  split; [exact H2|].
  unfold GetRetryType, gocql.Error. rewrite H2. reflexivity.
Qed.

(** ** The request errors *)

(** C9: whatever the policy holds, a read timeout, an unavailable error
    and a write timeout are answered with [Retry], and nothing is slept. *)
Theorem GetRetryType_request_errors (crp : CosmosRetryPolicy)
    (src : rand.Source) (message : string) :
  GetRetryType crp src (gocql.RequestErrReadTimeout message)
    = Returns (mkVerdict gocql.Retry []) /\
  GetRetryType crp src (gocql.RequestErrUnavailable message)
    = Returns (mkVerdict gocql.Retry []) /\
  GetRetryType crp src (gocql.RequestErrWriteTimeout message)
    = Returns (mkVerdict gocql.Retry []).
Proof. repeat split. Qed.

(** ** Errors that are not rate-limiting ones *)

(** C6: for a generic error whose message lacks the marker,
    [getRetryAfterMs] returns the negative duration [notRateLimited] and
    [GetRetryType] answers [Rethrow] without sleeping; and no message with
    the marker ever yields that duration. *)
Theorem not_rate_limited_rethrows (crp : CosmosRetryPolicy)
    (src : rand.Source) (errMsg : string) :
  strings.Contains errMsg rateLimitingErrPart = false ->
  getRetryAfterMs crp src errMsg = Returns notRateLimited /\
  notRateLimited < 0 /\
  GetRetryType crp src (gocql.otherError errMsg)
    = Returns (mkVerdict gocql.Rethrow []) /\
  (forall crp' src' errMsg' d,
      rateLimited errMsg' ->
      getRetryAfterMs crp' src' errMsg' = Returns d ->
      d <> notRateLimited).
Proof.
  intros Hno.
  assert (H : getRetryAfterMs crp src errMsg = Returns notRateLimited)
    by (unfold getRetryAfterMs; rewrite Hno; reflexivity).
  repeat split.
  - exact H.
  - unfold GetRetryType, gocql.Error. rewrite H. reflexivity.
  - intros crp' src' errMsg' d. apply rate_limited_not_sentinel.
Qed.

Lemma not_rate_limited_rethrows_witness :
  getRetryAfterMs (NewCosmosRetryPolicy 5) 0%N "error: today is not your day!"
    = Returns notRateLimited /\
  GetRetryType (NewCosmosRetryPolicy 2) 0%N
    (gocql.otherError "error: today is not your day")
    = Returns (mkVerdict gocql.Rethrow []).
Proof.
  split.
  - apply (not_rate_limited_rethrows (NewCosmosRetryPolicy 5) 0%N
             "error: today is not your day!").
    reflexivity.
  - apply (not_rate_limited_rethrows (NewCosmosRetryPolicy 2) 0%N
             "error: today is not your day").
    reflexivity.
Defined.

(** ** The delay supplied by the server *)

(** C3: within the range of [time.Duration], when the message carries the
    marker, the key of its second fragment is [RetryAfterMs] up to
    surrounding space and the value of that fragment denotes, in decimal,
    an integer [v] of at most 9223372036854 in absolute value, the delay
    is exactly [v] milliseconds. *)
Theorem server_delay_exact (crp : CosmosRetryPolicy) (src : rand.Source)
    (errMsg fragment value : string) (v : Z) :
  rateLimited errMsg ->
  secondFragment errMsg = Some fragment ->
  strings.TrimSpace (fragmentKey fragment) = retryAfterKey ->
  fragmentValue fragment = Some value ->
  decimalValue value = Some v ->
  - maxMilliseconds <= v <= maxMilliseconds ->
  getRetryAfterMs crp src errMsg = Returns (milliseconds v).
Proof.
  intros Hm Hfrag Hkey Hval Hdec Hv.
  rewrite (backoff_with_key crp src errMsg fragment Hm Hfrag value);
    [|apply String.eqb_eq; exact Hkey|exact Hval].
  rewrite (Atoi_decimalValue value v Hdec)
    by (unfold minInt64, maxInt64, maxMilliseconds in *; lia).
  cbn [fst]. rewrite mul_Millisecond_exact by exact Hv. reflexivity.
Qed.

(** The message of the test suite, with [RetryAfterMs=42], gives 42 ms. *)
Lemma server_delay_exact_witness :
  getRetryAfterMs (NewCosmosRetryPolicy 5) 0%N rateLimitedErrMsg
  = Returns (milliseconds 42).
Proof.
  apply (server_delay_exact (NewCosmosRetryPolicy 5) 0%N rateLimitedErrMsg
           " RetryAfterMs=42" "42" 42).
  - reflexivity.
  - reflexivity.
  - reflexivity.
  - reflexivity.
  - reflexivity.
  - unfold maxMilliseconds. lia.
Defined.

(** C3 as stated, for every integer, fails: 9223372036855 ms is more than
    an [int64] of nanoseconds holds, and the product wraps around to a
    negative duration. *)
Lemma server_delay_wraps_around :
  let errMsg := "TooManyRequests (429), RetryAfterMs=9223372036855"%string in
  let fragment := " RetryAfterMs=9223372036855"%string in
  rateLimited errMsg /\
  secondFragment errMsg = Some fragment /\
  strings.TrimSpace (fragmentKey fragment) = retryAfterKey /\
  fragmentValue fragment = Some "9223372036855"%string /\
  decimalValue "9223372036855" = Some 9223372036855 /\
  getRetryAfterMs (NewCosmosRetryPolicy 5) 0%N errMsg
    = Returns (-9223372036854551616) /\
  getRetryAfterMs (NewCosmosRetryPolicy 5) 0%N errMsg
    <> Returns (milliseconds 9223372036855).
Proof.
  cbv zeta. repeat split; try (vm_compute; reflexivity).
  vm_compute. discriminate.
Qed.

(** C8: for the values [Atoi] rejects as ill-formed, when the message
    carries the marker, the key of its second fragment is [RetryAfterMs]
    up to surrounding space, and its value is a malformed integer, the
    call returns a delay of exactly 0 ms. *)
Theorem malformed_delay_is_zero (crp : CosmosRetryPolicy) (src : rand.Source)
    (errMsg fragment value : string) :
  rateLimited errMsg ->
  secondFragment errMsg = Some fragment ->
  strings.TrimSpace (fragmentKey fragment) = retryAfterKey ->
  fragmentValue fragment = Some value ->
  malformedInteger value ->
  getRetryAfterMs crp src errMsg = Returns (milliseconds 0).
Proof.
  intros Hm Hfrag Hkey Hval Hbad.
  rewrite (backoff_with_key crp src errMsg fragment Hm Hfrag value);
    [|apply String.eqb_eq; exact Hkey|exact Hval].
  rewrite (Atoi_malformedInteger value Hbad). reflexivity.
Qed.

Lemma malformed_delay_is_zero_witness :
  getRetryAfterMs (NewCosmosRetryPolicy 5) 0%N
    "TooManyRequests (429), RetryAfterMs=4x2" = Returns (milliseconds 0).
Proof.
  apply (malformed_delay_is_zero (NewCosmosRetryPolicy 5) 0%N
           "TooManyRequests (429), RetryAfterMs=4x2" " RetryAfterMs=4x2" "4x2").
  - reflexivity.
  - reflexivity.
  - reflexivity.
  - reflexivity.
  - right. split.
    + discriminate.
    + vm_compute. discriminate.
Defined.

(** C8 as stated, for every value that does not parse, fails: for a value
    out of range, and for digits out of range followed by a letter, [Atoi]
    reports an error together with the largest [int64], and that number of
    milliseconds wraps around to -1 ms. *)
Lemma unparsable_delay_not_zero :
  let big := "TooManyRequests (429), RetryAfterMs=9223372036854775808"%string in
  let bad := "TooManyRequests (429), RetryAfterMs=99999999999999999999x"%string in
  (rateLimited big /\
   secondFragment big = Some " RetryAfterMs=9223372036854775808"%string /\
   carriesRetryAfterKey " RetryAfterMs=9223372036854775808" = true /\
   fragmentValue " RetryAfterMs=9223372036854775808"
     = Some "9223372036854775808"%string /\
   strconv.Atoi "9223372036854775808" = (maxInt64, Some strconv.ErrRange) /\
   getRetryAfterMs (NewCosmosRetryPolicy 5) 0%N big = Returns (-1000000) /\
   getRetryAfterMs (NewCosmosRetryPolicy 5) 0%N big
     <> Returns (milliseconds 0)) /\
  (rateLimited bad /\
   secondFragment bad = Some " RetryAfterMs=99999999999999999999x"%string /\
   carriesRetryAfterKey " RetryAfterMs=99999999999999999999x" = true /\
   fragmentValue " RetryAfterMs=99999999999999999999x"
     = Some "99999999999999999999x"%string /\
   decimalValue "99999999999999999999x" = None /\
   strconv.Atoi "99999999999999999999x" = (maxInt64, Some strconv.ErrRange) /\
   getRetryAfterMs (NewCosmosRetryPolicy 5) 0%N bad = Returns (-1000000) /\
   getRetryAfterMs (NewCosmosRetryPolicy 5) 0%N bad
     <> Returns (milliseconds 0)).
Proof.
  cbv zeta.
  repeat match goal with |- _ /\ _ => split end;
    try (vm_compute; reflexivity); vm_compute; discriminate.
Qed.

(** ** The back-off without a delay from the server *)

(** C5: for [MaxRetryCount] above [-1], when the message carries the
    marker and its second fragment does not carry the key, the delay is
    exactly [FixedBackOffTimeMs] milliseconds, as long as that number is
    at most 9223372036854 in absolute value. *)
Theorem fixed_backoff_exact (crp : CosmosRetryPolicy) (src : rand.Source)
    (errMsg fragment : string) :
  -1 < MaxRetryCount crp ->
  rateLimited errMsg ->
  secondFragment errMsg = Some fragment ->
  carriesRetryAfterKey fragment = false ->
  - maxMilliseconds <= FixedBackOffTimeMs crp <= maxMilliseconds ->
  getRetryAfterMs crp src errMsg = Returns (milliseconds (FixedBackOffTimeMs crp)).
Proof.
  intros Hmax Hm Hfrag Hkey HF.
  rewrite (backoff_fixed crp src errMsg fragment Hm Hfrag Hkey Hmax).
  rewrite mul_Millisecond_exact by exact HF. reflexivity.
Qed.

(** The test suite's case: a policy bounded by 5 waits for its fixed
    back-off, 5000 ms. *)
Lemma fixed_backoff_exact_witness :
  getRetryAfterMs (NewCosmosRetryPolicy 5) 0%N
    rateLimitedErrMsgWithoutRetryAfterMs = Returns (milliseconds 5000).
Proof.
  apply (fixed_backoff_exact (NewCosmosRetryPolicy 5) 0%N
           rateLimitedErrMsgWithoutRetryAfterMs (" " ++ errorDetailsHead)).
  - reflexivity.
  - reflexivity.
  - reflexivity.
  - reflexivity.
  - split; vm_compute; discriminate.
Defined.

(** C5 as stated, for every [MaxRetryCount] other than [-1], fails: a
    policy with [MaxRetryCount = -2] is not above [-1] and takes the
    growing back-off.  And a fixed back-off of 9223372036855 ms wraps
    around. *)
Lemma fixed_backoff_not_below_minus_one :
  let errMsg := rateLimitedErrMsgWithoutRetryAfterMs in
  let large := {| MaxRetryCount := 5; FixedBackOffTimeMs := 9223372036855;
                  GrowingBackOffTimeMs := 1000; numAttempts := 0 |} in
  rateLimited errMsg /\
  (exists fragment, secondFragment errMsg = Some fragment /\
                    carriesRetryAfterKey fragment = false) /\
  MaxRetryCount (NewCosmosRetryPolicy (-2)) <> -1 /\
  getRetryAfterMs (NewCosmosRetryPolicy (-2)) 0%N errMsg = Returns 0 /\
  getRetryAfterMs (NewCosmosRetryPolicy (-2)) 0%N errMsg
    <> Returns (milliseconds (FixedBackOffTimeMs (NewCosmosRetryPolicy (-2)))) /\
  getRetryAfterMs large 0%N errMsg
    <> Returns (milliseconds (FixedBackOffTimeMs large)).
Proof.
  cbv zeta.
  split; [vm_compute; reflexivity|].
  split; [exists (" " ++ errorDetailsHead)%string; split; vm_compute; reflexivity|].
  split; [vm_compute; discriminate|].
  split; [vm_compute; reflexivity|].
  split; vm_compute; discriminate.
Qed.

(** C4: as long as nothing overflows, for a policy with [MaxRetryCount]
    equal to [-1], a message with the marker whose second fragment does
    not carry the key gives [GrowingBackOffTimeMs * numAttempts + j]
    milliseconds for a jitter [j] with [0 <= j < 2000], provided the
    product lies between -9223372036854 and 9223372034855. *)
Theorem growing_backoff_exact (crp : CosmosRetryPolicy) (src : rand.Source)
    (errMsg fragment : string) :
  MaxRetryCount crp = -1 ->
  rateLimited errMsg ->
  secondFragment errMsg = Some fragment ->
  carriesRetryAfterKey fragment = false ->
  - maxMilliseconds <= GrowingBackOffTimeMs crp * numAttempts crp
    <= maxMilliseconds - 1999 ->
  exists j, 0 <= j < 2000 /\
    getRetryAfterMs crp src errMsg =
    Returns (milliseconds (GrowingBackOffTimeMs crp * numAttempts crp + j)).
Proof.
  intros Hmax Hm Hfrag Hkey Hg.
  exists (Z.of_N src mod growingBackOffSaltMillis).
  split; [apply salt_bounds|].
  rewrite (backoff_growing crp src errMsg fragment Hm Hfrag Hkey) by lia.
  rewrite growing_exact by (exact Hg || apply salt_bounds). reflexivity.
Qed.

(** The test suite's case: growing back-off 1000 ms and two attempts give
    at least 2000 ms and less than 4000 ms. *)
Lemma growing_backoff_exact_witness :
  let crp := {| MaxRetryCount := -1; FixedBackOffTimeMs := 5000;
                GrowingBackOffTimeMs := 1000; numAttempts := 2 |} in
  exists d,
    getRetryAfterMs crp 1234567%N rateLimitedErrMsgWithoutRetryAfterMs
      = Returns d /\
    milliseconds 2000 <= d < milliseconds 4000.
Proof.
  cbv zeta.
  destruct (growing_backoff_exact
              {| MaxRetryCount := -1; FixedBackOffTimeMs := 5000;
                 GrowingBackOffTimeMs := 1000; numAttempts := 2 |}
              1234567%N rateLimitedErrMsgWithoutRetryAfterMs
              (" " ++ errorDetailsHead))
    as [j [Hj Hres]].
  - reflexivity.
  - reflexivity.
  - reflexivity.
  - reflexivity.
  - split; vm_compute; discriminate.
  - exists (milliseconds (1000 * 2 + j)). split; [exact Hres|].
    unfold milliseconds. lia.
Defined.

(** C4 as stated, for every policy, fails: with a growing back-off of
    [2^62] ms and four attempts the product wraps around to zero, and the
    delay is the jitter alone. *)
Lemma growing_backoff_wraps_around :
  let crp := {| MaxRetryCount := -1; FixedBackOffTimeMs := 5000;
                GrowingBackOffTimeMs := 4611686018427387904;
                numAttempts := 4 |} in
  let errMsg := rateLimitedErrMsgWithoutRetryAfterMs in
  rateLimited errMsg /\
  (exists fragment, secondFragment errMsg = Some fragment /\
                    carriesRetryAfterKey fragment = false) /\
  getRetryAfterMs crp 0%N errMsg = Returns 0 /\
  ~ (exists j, 0 <= j < 2000 /\
       getRetryAfterMs crp 0%N errMsg =
       Returns (milliseconds (GrowingBackOffTimeMs crp * numAttempts crp + j))).
Proof.
  cbv zeta.
  assert (Hres : getRetryAfterMs
                   {| MaxRetryCount := -1; FixedBackOffTimeMs := 5000;
                      GrowingBackOffTimeMs := 4611686018427387904;
                      numAttempts := 4 |} 0%N
                   rateLimitedErrMsgWithoutRetryAfterMs = Returns 0)
    by (vm_compute; reflexivity).
  split; [vm_compute; reflexivity|].
  split; [exists (" " ++ errorDetailsHead)%string; split; vm_compute; reflexivity|].
  split; [exact Hres|].
  intros [j [Hj Heq]]. rewrite Hres in Heq.
  apply (f_equal (fun o => match o with Returns d => d | Panics _ => 0 end))
    in Heq.
  cbv beta iota in Heq. cbn [GrowingBackOffTimeMs numAttempts] in Heq.
  unfold milliseconds in Heq. lia.
Qed.

(** C10: a policy as [NewCosmosRetryPolicy] makes it has recorded no
    attempt, yet an unbounded one does not give a delay on every message
    with the marker and without the key [RetryAfterMs]: the message that
    is the marker alone has no key and no second fragment, and on it
    [getRetryAfterMs] indexes a slice of length 1 at 1 and panics,
    whatever the back-off times are set to, and so does [GetRetryType]. *)
Theorem fresh_unbounded_policy_panics_without_fragment (src : rand.Source)
    (fixed growing : Z) :
  let fresh := NewCosmosRetryPolicy (-1) in
  let crp := {| MaxRetryCount := MaxRetryCount fresh;
                FixedBackOffTimeMs := fixed;
                GrowingBackOffTimeMs := growing;
                numAttempts := numAttempts fresh |} in
  let errMsg := "TooManyRequests (429)"%string in
  numAttempts fresh = 0 /\
  MaxRetryCount fresh = -1 /\
  rateLimited errMsg /\
  strings.Contains errMsg retryAfterKey = false /\
  secondFragment errMsg = None /\
  getRetryAfterMs fresh src errMsg = Panics (IndexOutOfRange 1 1) /\
  getRetryAfterMs crp src errMsg = Panics (IndexOutOfRange 1 1) /\
  GetRetryType fresh src (gocql.otherError errMsg)
    = Panics (IndexOutOfRange 1 1).
Proof.
  cbv zeta.
  assert (Hpanics : forall p, getRetryAfterMs p src "TooManyRequests (429)"
                              = Panics (IndexOutOfRange 1 1))
    by (intros p; rewrite getRetryAfterMs_cases; reflexivity).
  split; [reflexivity|]. split; [reflexivity|]. split; [reflexivity|].
  split; [reflexivity|]. split; [reflexivity|].
  split; [apply Hpanics|]. split; [apply Hpanics|].
  unfold GetRetryType, gocql.Error. rewrite Hpanics. reflexivity.
Qed.

(** Where the message has a second fragment: a policy as
    [NewCosmosRetryPolicy] makes it has recorded no attempt; when it is
    unbounded, whatever its back-off times are set to, a message with the
    marker whose second fragment does not carry the key gives the jitter
    alone, a delay of at least 0 ms and less than 2000 ms, the same as
    with the default back-off times. *)
Theorem fresh_unbounded_policy_jitter_only (src : rand.Source)
    (errMsg fragment : string) (fixed growing : Z) :
  rateLimited errMsg ->
  secondFragment errMsg = Some fragment ->
  carriesRetryAfterKey fragment = false ->
  let fresh := NewCosmosRetryPolicy (-1) in
  let crp := {| MaxRetryCount := MaxRetryCount fresh;
                FixedBackOffTimeMs := fixed;
                GrowingBackOffTimeMs := growing;
                numAttempts := numAttempts fresh |} in
  numAttempts fresh = 0 /\
  exists j, 0 <= j < 2000 /\
    getRetryAfterMs crp src errMsg = Returns (milliseconds j) /\
    getRetryAfterMs fresh src errMsg = Returns (milliseconds j) /\
    0 <= milliseconds j < milliseconds 2000.
Proof.
  intros Hm Hfrag Hkey fresh crp. split; [reflexivity|].
  exists (Z.of_N src mod growingBackOffSaltMillis).
  pose proof (salt_bounds src) as Hj.
  split; [exact Hj|].
  rewrite (backoff_growing crp src errMsg fragment Hm Hfrag Hkey)
    by (cbn; lia).
  rewrite (backoff_growing fresh src errMsg fragment Hm Hfrag Hkey)
    by (cbn; lia).
  cbn [GrowingBackOffTimeMs numAttempts crp fresh NewCosmosRetryPolicy].
  rewrite !Z.mul_0_r.
  rewrite !growing_exact by (exact Hj || (unfold maxMilliseconds; lia)).
  rewrite Z.add_0_l.
  split; [reflexivity|]. split; [reflexivity|].
  unfold growingBackOffSaltMillis in *. unfold milliseconds. lia.
Qed.

Lemma fresh_unbounded_policy_jitter_only_witness :
  exists j, 0 <= j < 2000 /\
    getRetryAfterMs (NewCosmosRetryPolicy (-1)) 1234567%N
      rateLimitedErrMsgWithoutRetryAfterMs = Returns (milliseconds j).
Proof.
  destruct (fresh_unbounded_policy_jitter_only 1234567%N
              rateLimitedErrMsgWithoutRetryAfterMs (" " ++ errorDetailsHead)
              7000 3000)
    as [_ [j [Hj [_ [Hres _]]]]].
  - reflexivity.
  - reflexivity.
  - reflexivity.
  - exists j. split; [exact Hj | exact Hres].
Defined.

(** ** The sign of the durations *)




(** ** The cases of the test suite *)

Example TestRetryDuration :
  let p := NewCosmosRetryPolicy 5 in
  getRetryAfterMs p 0%N rateLimitedErrMsg
    = Returns (time.mul 42 time.Millisecond) /\
  getRetryAfterMs p 0%N rateLimitedErrMsgWithoutRetryAfterMs
    = Returns (time.mul (FixedBackOffTimeMs p) time.Millisecond) /\
  getRetryAfterMs p 0%N "error: today is not your day!" = Returns (-1).
Proof. repeat split. Qed.

(** An unbounded policy that has recorded two attempts waits for two
    seconds at least, whatever the source draws. *)
Example TestRetryDurationForRateLimitedErrorInfiniteRetry (src : rand.Source) :
  let p := {| MaxRetryCount := -1;
              FixedBackOffTimeMs := defaultFixedBackOffTimeMs;
              GrowingBackOffTimeMs := defaultGrowingBackOffTimeMs;
              numAttempts := 2 |} in
  exists d,
    getRetryAfterMs p src rateLimitedErrMsgWithoutRetryAfterMs = Returns d /\
    time.mul 2 time.Second <= d.
Proof.
  cbv zeta. eexists. split.
  - apply (backoff_growing _ src rateLimitedErrMsgWithoutRetryAfterMs
             (" " ++ errorDetailsHead)); [reflexivity .. | cbn; lia].
  - cbn [GrowingBackOffTimeMs numAttempts].
    pose proof (salt_bounds src) as Hj.
    rewrite growing_exact by (exact Hj || (vm_compute; split; discriminate)).
    unfold growingBackOffSaltMillis, defaultGrowingBackOffTimeMs in *.
    change (time.mul 2 time.Second) with 2000000000.
    unfold milliseconds. lia.
Qed.

Example TestGetRetryType :
  let p := NewCosmosRetryPolicy 2 in
  retryType_of (GetRetryType p 0%N (gocql.RequestErrReadTimeout ""))
    = Some gocql.Retry /\
  retryType_of (GetRetryType p 0%N (gocql.RequestErrUnavailable ""))
    = Some gocql.Retry /\
  retryType_of (GetRetryType p 0%N (gocql.RequestErrWriteTimeout ""))
    = Some gocql.Retry /\
  retryType_of (GetRetryType p 0%N (gocql.otherError rateLimitedErrMsg))
    = Some gocql.Retry /\
  retryType_of
    (GetRetryType p 0%N (gocql.otherError rateLimitedErrMsgWithoutRetryAfterMs))
    = Some gocql.Retry /\
  retryType_of
    (GetRetryType p 0%N (gocql.otherError "error: today is not your day"))
    = Some gocql.Rethrow.
Proof. repeat split. Qed.

(** ** Texts: concatenation, occurrences, white space *)

Section Texts.

Lemma string_app_assoc (a b c : string) :
  ((a ++ b) ++ c = a ++ (b ++ c))%string.
Proof. induction a as [|x a IH]; simpl; [reflexivity | rewrite IH; reflexivity]. Qed.

Lemma list_ascii_of_string_app (a b : string) :
  list_ascii_of_string (a ++ b) =
  (list_ascii_of_string a ++ list_ascii_of_string b)%list.
Proof. induction a as [|x a IH]; simpl; [reflexivity | rewrite IH; reflexivity]. Qed.

Lemma byte_range (c : ascii) : 0 <= Go.byte c < 256.
Proof.
  unfold Go.byte. pose proof (N_ascii_bounded c) as Hb. lia.
Qed.

Lemma HasPrefix_app (m b : string) : strings.HasPrefix (m ++ b) m = true.
Proof.
  induction m as [|x m IH]; simpl; [destruct b; reflexivity|].
  rewrite Ascii.eqb_refl, IH. reflexivity.
Qed.

Lemma Contains_app_r (a s m : string) :
  strings.Contains s m = true -> strings.Contains (a ++ s) m = true.
Proof.
  intros Hs. induction a as [|x a IH]; simpl; [exact Hs|].
  rewrite IH. apply orb_true_r.
Qed.

(** A text that embeds the marker is a rate-limiting message. *)
Lemma Contains_embedded (a m b : string) :
  strings.Contains (a ++ m ++ b) m = true.
Proof.
  apply Contains_app_r.
  assert (Hunfold : forall s, strings.HasPrefix s m = true ->
                              strings.Contains s m = true)
    by (intros s Hs; destruct s; cbn [strings.Contains]; rewrite Hs;
        reflexivity).
  apply Hunfold, HasPrefix_app.
Qed.

Lemma free_app (sep : ascii) (a b : string) :
  free sep a -> free sep b -> free sep (a ++ b).
Proof.
  unfold free. intros Ha Hb. induction a as [|x a IH]; simpl in *; [exact Hb|].
  destruct (Ascii.eqb x sep); [discriminate | auto].
Qed.

(** A byte that differs from every byte of a text does not occur in it. *)
Lemma free_bytes (sep : ascii) (s : string) :
  Forall (fun b => b <> Go.byte sep) (Go.bytes s) -> free sep s.
Proof.
  unfold free, Go.bytes. induction s as [|x s IH]; simpl; intros Hall;
    [reflexivity|].
  inversion Hall as [|b l Hx Hrest]; subst.
  destruct (Ascii.eqb_spec x sep) as [->|_]; [now contradiction Hx | auto].
Qed.

Lemma blank_free (sep : ascii) (s : string) :
  asciiSpace sep = false -> blank s = true -> free sep s.
Proof.
  unfold free. intros Hsep. induction s as [|x s IH]; simpl; [reflexivity|].
  intros Hb. apply andb_prop in Hb as [Hx Hs].
  destruct (Ascii.eqb_spec x sep) as [->|_]; [congruence | auto].
Qed.

End Texts.

(** ** [strings.TrimSpace] on a text padded with ASCII white space *)

Section Trimming.

Lemma first_ascii (b : Z) : b < 194 -> utf8.first b = None.
Proof.
  intros Hb. unfold utf8.first, utf8.inRange.
  repeat match goal with
         | |- context [?x <=? b] =>
           replace (x <=? b) with false by (symmetry; apply Z.leb_gt; lia)
         | |- context [b =? ?x] =>
           replace (b =? x) with false by (symmetry; apply Z.eqb_neq; lia)
         end.
  reflexivity.
Qed.

Lemma DecodeRuneInString_ascii (b : Z) (rest : list Z) :
  b < 128 -> utf8.DecodeRuneInString (b :: rest) = (b, 1%nat).
Proof.
  intros Hb. unfold utf8.DecodeRuneInString.
  rewrite first_ascii by lia. unfold utf8.RuneSelf.
  replace (b <? 128) with true by (symmetry; apply Z.ltb_lt; lia).
  reflexivity.
Qed.

Lemma DecodeLastRuneInString_ascii (l : list Z) (b : Z) :
  b < 128 -> utf8.DecodeLastRuneInString (l ++ [b]) = (b, 1%nat).
Proof.
  intros Hb. unfold utf8.DecodeLastRuneInString.
  rewrite length_app. cbn [List.length]. rewrite Nat.add_1_r.
  rewrite nth_middle. unfold utf8.RuneSelf.
  replace (b <? 128) with true by (symmetry; apply Z.ltb_lt; lia).
  reflexivity.
Qed.

(** On ASCII, [unicode.IsSpace] is the test [asciiSpace]. *)
Lemma IsSpace_ascii (c : ascii) :
  Go.byte c < 128 -> unicode.IsSpace (Go.byte c) = asciiSpace c.
Proof.
  intros Hc. unfold unicode.IsSpace, asciiSpace. cbv zeta.
  replace (Go.byte c <=? 255) with true by (symmetry; apply Z.leb_le; lia).
  replace (Go.byte c =? 133) with false by (symmetry; apply Z.eqb_neq; lia).
  replace (Go.byte c =? 160) with false by (symmetry; apply Z.eqb_neq; lia).
  rewrite !orb_false_r. reflexivity.
Qed.

Lemma asciiSpace_ascii (c : ascii) : asciiSpace c = true -> Go.byte c < 128.
Proof.
  unfold asciiSpace. cbv zeta. intros H.
  repeat (apply orb_prop in H as [H | H]); apply Z.eqb_eq in H; lia.
Qed.

Lemma trimLeft_blank (pad : string) :
  blank pad = true ->
  forall fuel rest, (String.length pad <= fuel)%nat ->
  strings.trimLeft fuel (list_ascii_of_string pad ++ rest) =
  strings.trimLeft (fuel - String.length pad) rest.
Proof.
  induction pad as [|c pad IH]; intros Hb fuel rest Hfuel.
  - simpl. rewrite Nat.sub_0_r. reflexivity.
  - simpl in Hb. apply andb_prop in Hb as [Hc Hpad].
    destruct fuel as [|fuel]; [simpl in Hfuel; lia|].
    cbn [String.length list_ascii_of_string app strings.trimLeft map].
    pose proof (asciiSpace_ascii c Hc) as Hlt.
    rewrite DecodeRuneInString_ascii by exact Hlt.
    rewrite IsSpace_ascii, Hc by exact Hlt.
    cbn [skipn Nat.sub]. apply IH; [exact Hpad | simpl in Hfuel; lia].
Qed.

Lemma trimLeft_stop (fuel : nat) (c : ascii) (rest : list ascii) :
  Go.byte c < 128 -> asciiSpace c = false ->
  strings.trimLeft fuel (c :: rest) = c :: rest.
Proof.
  intros Hlt Hc. destruct fuel as [|fuel]; [reflexivity|].
  cbn [strings.trimLeft map].
  rewrite DecodeRuneInString_ascii by exact Hlt.
  rewrite IsSpace_ascii, Hc by exact Hlt. reflexivity.
Qed.

Lemma trimRight_step (fuel : nat) (l : list ascii) (c : ascii) :
  Go.byte c < 128 ->
  strings.trimRight (S fuel) (l ++ [c]) =
  if asciiSpace c then strings.trimRight fuel l else (l ++ [c])%list.
Proof.
  intros Hlt. cbn [strings.trimRight].
  rewrite map_app. cbn [map].
  rewrite DecodeLastRuneInString_ascii by exact Hlt.
  rewrite IsSpace_ascii by exact Hlt.
  destruct (asciiSpace c); [|reflexivity].
  rewrite length_app. cbn [List.length].
  replace (List.length l + 1 - 1)%nat with (List.length l) by lia.
  rewrite firstn_app, firstn_all, Nat.sub_diag. cbn [firstn].
  rewrite app_nil_r. reflexivity.
Qed.

Lemma trimRight_blank (pad : list ascii) :
  forallb asciiSpace pad = true ->
  forall fuel core, (List.length pad <= fuel)%nat ->
  strings.trimRight fuel (core ++ pad) =
  strings.trimRight (fuel - List.length pad) core.
Proof.
  induction pad as [|c pad IH] using rev_ind; intros Hb fuel core Hfuel.
  - rewrite app_nil_r. simpl. rewrite Nat.sub_0_r. reflexivity.
  - rewrite forallb_app in Hb. apply andb_prop in Hb as [Hpad Hc].
    simpl in Hc. rewrite andb_true_r in Hc.
    rewrite length_app in Hfuel |- *. cbn [List.length] in Hfuel |- *.
    destruct fuel as [|fuel]; [lia|].
    rewrite app_assoc.
    rewrite trimRight_step by (apply asciiSpace_ascii; exact Hc).
    rewrite Hc. rewrite IH by (assumption || lia).
    f_equal. lia.
Qed.

Lemma blank_forallb (s : string) :
  blank s = forallb asciiSpace (list_ascii_of_string s).
Proof. induction s as [|c s IH]; simpl; [reflexivity | rewrite IH; reflexivity]. Qed.

Lemma length_list_ascii_of_string (s : string) :
  List.length (list_ascii_of_string s) = String.length s.
Proof. induction s as [|c s IH]; simpl; [reflexivity | rewrite IH; reflexivity]. Qed.

(** A text that begins and ends with an ASCII byte that is not white
    space is what [TrimSpace] leaves of it with blanks on both sides. *)
Lemma TrimSpace_padded (pad1 pad2 : string) (c1 c2 : ascii) (mid : list ascii) :
  blank pad1 = true -> blank pad2 = true ->
  Go.byte c1 < 128 -> asciiSpace c1 = false ->
  Go.byte c2 < 128 -> asciiSpace c2 = false ->
  let core := string_of_list_ascii (c1 :: mid ++ [c2]) in
  strings.TrimSpace (pad1 ++ core ++ pad2) = core.
Proof.
  intros Hp1 Hp2 H1 Hs1 H2 Hs2 core. unfold strings.TrimSpace. cbv zeta.
  rewrite !list_ascii_of_string_app. unfold core.
  rewrite list_ascii_of_string_of_list_ascii.
  rewrite trimLeft_blank
    by (try exact Hp1; rewrite !length_app, length_list_ascii_of_string; lia).
  rewrite <- app_comm_cons. rewrite trimLeft_stop by assumption.
  rewrite app_comm_cons.
  rewrite trimRight_blank
    by (try (rewrite <- blank_forallb; exact Hp2); rewrite length_app; lia).
  rewrite length_app, Nat.add_sub.
  cbn [List.length]. rewrite app_comm_cons.
  rewrite trimRight_step by exact H2. rewrite Hs2. reflexivity.
Qed.

(** The key between blanks is recognised. *)
Lemma TrimSpace_key (pad1 pad2 : string) :
  blank pad1 = true -> blank pad2 = true ->
  strings.TrimSpace (pad1 ++ retryAfterKey ++ pad2) = retryAfterKey.
Proof.
  intros Hp1 Hp2.
  apply (TrimSpace_padded pad1 pad2 "R" "s"
           (list_ascii_of_string "etryAfterM") Hp1 Hp2); reflexivity.
Qed.

End Trimming.

(** ** Decimal integers: their bytes, and [Atoi] beyond [int64] *)

Section DecimalIntegers.

Lemma leadingDigits_all (l : list Z) :
  forall acc, snd (leadingDigits acc l) = [] ->
  Forall (fun b => isDigit b = true) l.
Proof.
  induction l as [|c l IH]; intros acc Hrest; [constructor|].
  simpl in Hrest. destruct (isDigit c) eqn:Hc; [|discriminate Hrest].
  constructor; [exact Hc | eapply IH; exact Hrest].
Qed.

(** A byte that is neither a sign nor a digit does not occur in the
    decimal notation of an integer. *)
Lemma decimalValue_free (sep : ascii) (s : string) (v : Z) :
  decimalValue s = Some v ->
  Go.byte sep <> 43 -> Go.byte sep <> 45 -> isDigit (Go.byte sep) = false ->
  free sep s.
Proof.
  unfold decimalValue. intros Hdec Hplus Hminus Hdigit.
  apply free_bytes.
  assert (Hdigits : forall l, Forall (fun b => isDigit b = true) l ->
                              Forall (fun b => b <> Go.byte sep) l).
  { intros l Hl. eapply Forall_impl; [|exact Hl].
    intros b Hb Heq. cbv beta in Hb. congruence. }
  destruct (Go.bytes s) as [|c0 l0]; [discriminate Hdec|].
  unfold unsigned in Hdec.
  destruct (Z.eqb_spec c0 43) as [-> | Hn43];
    [|destruct (Z.eqb_spec c0 45) as [-> | Hn45]].
  - destruct l0 as [|c l0]; [discriminate Hdec|].
    destruct (leadingDigits 0 (c :: l0)) as [u rest] eqn:Hld.
    destruct rest; [|discriminate Hdec].
    constructor; [congruence|].
    apply Hdigits, (leadingDigits_all _ 0). rewrite Hld. reflexivity.
  - destruct l0 as [|c l0]; [discriminate Hdec|].
    destruct (leadingDigits 0 (c :: l0)) as [u rest] eqn:Hld.
    destruct rest; [|discriminate Hdec].
    constructor; [congruence|].
    apply Hdigits, (leadingDigits_all _ 0). rewrite Hld. reflexivity.
  - destruct (leadingDigits 0 (c0 :: l0)) as [u rest] eqn:Hld.
    destruct rest; [|discriminate Hdec].
    apply Hdigits, (leadingDigits_all _ 0). rewrite Hld. reflexivity.
Qed.

(** One turn of the digit loop on a digit, overflow included. *)
Lemma parseUintLoop_digit_cases (n c : Z) (s : list Z) :
  isDigit c = true -> 0 <= n <= strconv.maxUint64 ->
  strconv.parseUintLoop n (c :: s) =
  if n * 10 + (c - 48) <=? strconv.maxUint64
  then strconv.parseUintLoop (n * 10 + (c - 48)) s
  else (strconv.maxUint64, Some strconv.ErrRange).
Proof.
  intros Hc Hn.
  destruct (Z.leb_spec (n * 10 + (c - 48)) strconv.maxUint64) as [Hfit | Hover].
  - apply parseUintLoop_digit; (assumption || lia).
  - cbn [strconv.parseUintLoop].
    rewrite maxVal_maxUint64, cutoff_value.
    pose proof Hc as Hc'. unfold isDigit in Hc'. rewrite Hc'.
    apply andb_prop in Hc' as [Hlo Hhi]. apply Z.leb_le in Hlo, Hhi.
    cbv zeta.
    replace (10 <=? c - 48) with false by (symmetry; apply Z.leb_gt; lia).
    destruct (Z.leb_spec 1844674407370955162 n) as [Hcut | Hcut];
      [reflexivity|].
    unfold strconv.maxUint64 in *. unfold wrapU64.
    rewrite (Z.mod_small (n * 10)) by lia.
    replace ((n * 10 + (c - 48)) mod 2 ^ 64)
      with (n * 10 + (c - 48) - 2 ^ 64).
    2:{ apply Z.mod_unique with (q := 1); lia. }
    replace (n * 10 + (c - 48) - 2 ^ 64 <? n * 10) with true
      by (symmetry; apply Z.ltb_lt; lia).
    reflexivity.
Qed.

(** Digits that denote more than [uint64] holds: a range error, with the
    largest [uint64]. *)
Lemma parseUintLoop_overflow (s : list Z) :
  forall n, 0 <= n <= strconv.maxUint64 ->
  snd (leadingDigits n s) = [] ->
  strconv.maxUint64 < fst (leadingDigits n s) ->
  strconv.parseUintLoop n s = (strconv.maxUint64, Some strconv.ErrRange).
Proof.
  induction s as [|c s IH]; intros n Hn Hrest Hbig; [simpl in Hbig; lia|].
  simpl in Hrest, Hbig. destruct (isDigit c) eqn:Hc; [|discriminate Hrest].
  rewrite parseUintLoop_digit_cases by assumption.
  destruct (Z.leb_spec (n * 10 + (c - 48)) strconv.maxUint64) as [Hfit | Hover];
    [|reflexivity].
  unfold isDigit in Hc. apply andb_prop in Hc as [Hlo Hhi].
  apply Z.leb_le in Hlo, Hhi.
  apply IH; (assumption || lia).
Qed.

(** Outside [int64], [Atoi] reports a range error together with the
    bound of [int64] on the side of the number. *)
Lemma Atoi_out_of_range (s : string) (v : Z) :
  decimalValue s = Some v ->
  (maxInt64 < v -> strconv.Atoi s = (maxInt64, Some strconv.ErrRange)) /\
  (v < minInt64 -> strconv.Atoi s = (minInt64, Some strconv.ErrRange)).
Proof.
  unfold decimalValue, strconv.Atoi. intros Hdec.
  destruct (bytes s) as [|c0 l0] eqn:Hb; [discriminate Hdec|].
  rewrite ParseInt_unsigned by discriminate.
  destruct (unsigned (c0 :: l0)) as [neg body]. cbn [fst snd].
  destruct body as [|c body]; [discriminate Hdec|].
  destruct (leadingDigits 0 (c :: body)) as [u rest] eqn:Hld.
  destruct rest; [|discriminate Hdec].
  injection Hdec as Hdec.
  pose proof (leadingDigits_ge (c :: body) 0 ltac:(lia)) as Hge.
  rewrite Hld in Hge. cbn [fst] in Hge.
  unfold minInt64, maxInt64. unfold strconv.ParseUint. cbv zeta.
  destruct (Z.leb_spec u strconv.maxUint64) as [Hfit | Hover].
  - rewrite parseUintLoop_digits by (rewrite ?Hld; simpl; (reflexivity || lia)).
    rewrite Hld. cbn [fst].
    destruct neg; cbn [negb andb]; subst v; split; intros Hv; try lia.
    + replace (2 ^ 63 <? u) with true by (symmetry; apply Z.ltb_lt; lia).
      reflexivity.
    + replace (2 ^ 63 <=? u) with true by (symmetry; apply Z.leb_le; lia).
      reflexivity.
  - rewrite parseUintLoop_overflow
      by (rewrite ?Hld; simpl; unfold strconv.maxUint64 in *;
          (reflexivity || lia)).
    unfold strconv.maxUint64 in *.
    destruct neg; cbn [negb andb]; subst v; split; intros Hv; try lia;
      reflexivity.
Qed.

End DecimalIntegers.

(** ** The verdicts of [GetRetryType] *)

Lemma getRetryAfterMs_without_marker (crp : CosmosRetryPolicy)
    (src : rand.Source) (errMsg : string) :
  strings.Contains errMsg rateLimitingErrPart = false ->
  getRetryAfterMs crp src errMsg = Returns notRateLimited.
Proof. intros Hno. unfold getRetryAfterMs. rewrite Hno. reflexivity. Qed.

(** The sentinel is returned for the messages without the marker only. *)
Lemma sentinel_iff_not_rate_limited (crp : CosmosRetryPolicy)
    (src : rand.Source) (errMsg : string) (d : time.Duration) :
  getRetryAfterMs crp src errMsg = Returns d ->
  (d =? -1) = negb (strings.Contains errMsg rateLimitingErrPart).
Proof.
  intros Hres.
  destruct (strings.Contains errMsg rateLimitingErrPart) eqn:Hm; cbn [negb].
  - apply Z.eqb_neq.
    exact (rate_limited_not_sentinel crp src errMsg d Hm Hres).
  - rewrite getRetryAfterMs_without_marker in Hres by exact Hm.
    injection Hres as <-. reflexivity.
Qed.

(** Whenever [GetRetryType] returns, the verdict is [Retry] or [Rethrow]
    (never [RetryNextHost] or [Ignore]) and [time.Sleep] has been called
    at most once.  [Rethrow] comes without a sleep and only for a generic
    error whose message lacks the marker.  A sleep happens only for a
    generic error with the marker, for the very duration [getRetryAfterMs]
    returns on its message, and is followed by [Retry]. *)
Theorem GetRetryType_verdicts (crp : CosmosRetryPolicy) (src : rand.Source)
    (err : gocql.error) (v : verdict) :
  GetRetryType crp src err = Returns v ->
  (retryType v = gocql.Retry \/ retryType v = gocql.Rethrow) /\
  (List.length (slept v) <= 1)%nat /\
  (retryType v = gocql.Rethrow ->
   slept v = [] /\
   exists errMsg, err = gocql.otherError errMsg /\
                  strings.Contains errMsg rateLimitingErrPart = false) /\
  (forall d, In d (slept v) ->
   retryType v = gocql.Retry /\
   exists errMsg, err = gocql.otherError errMsg /\ rateLimited errMsg /\
                  getRetryAfterMs crp src errMsg = Returns d).
Proof.
  intros Hres.
  destruct err as [m | m | m | errMsg];
    try (injection Hres as <-; cbn [retryType slept List.length In];
         split; [left; reflexivity|]; split; [apply Nat.le_0_l|];
         split; [discriminate | intros d' []]).
  unfold GetRetryType, gocql.Error, bind in Hres.
  destruct (getRetryAfterMs crp src errMsg) as [d | p] eqn:Hd;
    [|discriminate Hres].
  rewrite (sentinel_iff_not_rate_limited crp src errMsg d Hd) in Hres.
  destruct (strings.Contains errMsg rateLimitingErrPart) eqn:Hm;
    cbn [negb] in Hres; injection Hres as <-;
    cbn [retryType slept List.length In].
  - split; [left; reflexivity|]. split; [apply le_n|].
    split; [discriminate|].
    intros d' [<- | []]. split; [reflexivity|].
    exists errMsg. split; [reflexivity|]. split; [exact Hm | exact Hd].
  - split; [right; reflexivity|]. split; [apply Nat.le_0_l|].
    split; [|intros d' []].
    intros _. split; [reflexivity|].
    exists errMsg. split; [reflexivity | exact Hm].
Qed.

Lemma GetRetryType_verdicts_witness :
  let v := mkVerdict gocql.Retry [milliseconds 42] in
  GetRetryType (NewCosmosRetryPolicy 2) 0%N (gocql.otherError rateLimitedErrMsg)
    = Returns v /\
  (retryType v = gocql.Retry \/ retryType v = gocql.Rethrow) /\
  (List.length (slept v) <= 1)%nat.
Proof.
  cbv zeta.
  destruct (GetRetryType_verdicts (NewCosmosRetryPolicy 2) 0%N
              (gocql.otherError rateLimitedErrMsg)
              (mkVerdict gocql.Retry [milliseconds 42]) eq_refl)
    as [Hkind [Hsleeps _]].
  split; [reflexivity|]. split; [exact Hkind | exact Hsleeps].
Defined.

(** [GetRetryType] panics on a generic error whose message carries the
    marker and either has no second fragment or has a second fragment
    with the key and no ["="] sign, and on no other error. *)
Theorem GetRetryType_panics_iff (crp : CosmosRetryPolicy) (src : rand.Source)
    (err : gocql.error) :
  (exists p, GetRetryType crp src err = Panics p) <->
  exists errMsg,
    err = gocql.otherError errMsg /\ rateLimited errMsg /\
    match secondFragment errMsg with
    | None => True
    | Some fragment =>
      carriesRetryAfterKey fragment = true /\ fragmentValue fragment = None
    end.
Proof.
  split.
  - intros [p Hp]. destruct err as [m | m | m | errMsg]; try discriminate Hp.
    exists errMsg. split; [reflexivity|].
    unfold GetRetryType, gocql.Error, bind in Hp.
    rewrite getRetryAfterMs_cases in Hp. unfold rateLimited.
    destruct (strings.Contains errMsg rateLimitingErrPart);
      [split; [reflexivity|] | discriminate Hp].
    destruct (secondFragment errMsg) as [fragment|]; [|exact I].
    destruct (carriesRetryAfterKey fragment).
    + destruct (fragmentValue fragment) as [value|]; [|split; reflexivity].
      destruct (_ =? -1) in Hp; discriminate Hp.
    + destruct (-1 <? MaxRetryCount crp); destruct (_ =? -1) in Hp;
        discriminate Hp.
  - intros [errMsg [-> [Hm Hshape]]].
    unfold GetRetryType, gocql.Error, bind.
    rewrite getRetryAfterMs_cases. unfold rateLimited in Hm. rewrite Hm.
    destruct (secondFragment errMsg) as [fragment|].
    + destruct Hshape as [Hkey Hval]. rewrite Hkey, Hval.
      eexists; reflexivity.
    + eexists; reflexivity.
Qed.

(** ** Messages in the format of the service *)

Section WireFormat.

Variables head pad1 pad2 value details1 details2 : string.
Hypothesis head_free : free "," head.
Hypothesis pad1_blank : blank pad1 = true.
Hypothesis pad2_blank : blank pad2 = true.
Hypothesis value_free_comma : free "," value.
Hypothesis value_free_equal : free "=" value.

(** How such a message reads: it carries the marker, its second fragment
    is the padded key with the value, the key is recognised. *)
Lemma rateLimitMessage_reads :
  let errMsg := rateLimitMessage head pad1 pad2 value details1 details2 in
  let fragment := (pad1 ++ retryAfterKey ++ pad2 ++ "=" ++ value)%string in
  rateLimited errMsg /\
  secondFragment errMsg = Some fragment /\
  carriesRetryAfterKey fragment = true /\
  fragmentValue fragment = Some value.
Proof.
  cbv zeta. unfold rateLimitMessage.
  assert (Hkey : free "=" (pad1 ++ retryAfterKey ++ pad2) /\
                 free "," (pad1 ++ retryAfterKey ++ pad2)).
  { split; repeat apply free_app;
      try (apply blank_free; [reflexivity | assumption]); reflexivity. }
  destruct Hkey as [Hkey_eq Hkey_comma].
  assert (Hfrag : (pad1 ++ retryAfterKey ++ pad2 ++ "=" ++ value
                   = (pad1 ++ retryAfterKey ++ pad2) ++ String "=" value)%string)
    by (rewrite !string_app_assoc; reflexivity).
  split; [|split; [|split]].
  - unfold rateLimited.
    replace (head ++ "," ++ (pad1 ++ retryAfterKey ++ pad2 ++ "=" ++ value)
             ++ "," ++ details1 ++ rateLimitingErrPart ++ details2)%string
      with ((head ++ "," ++ (pad1 ++ retryAfterKey ++ pad2 ++ "=" ++ value)
             ++ "," ++ details1) ++ rateLimitingErrPart ++ details2)%string
      by (rewrite !string_app_assoc; reflexivity).
    apply Contains_embedded.
  - unfold secondFragment.
    change (head ++ "," ++ ?rest)%string with (head ++ String "," rest)%string.
    rewrite after_app by exact head_free. cbn [option_map].
    change ((?f ++ "," ++ ?rest)%string) with ((f ++ String "," rest)%string).
    rewrite before_app; [reflexivity|].
    rewrite Hfrag. apply free_app; [exact Hkey_comma|].
    unfold free. cbn [after]. exact value_free_comma.
  - unfold carriesRetryAfterKey, fragmentKey. rewrite Hfrag.
    rewrite before_app by exact Hkey_eq.
    rewrite TrimSpace_key by assumption. reflexivity.
  - unfold fragmentValue. rewrite Hfrag.
    rewrite after_app by exact Hkey_eq. cbn [option_map].
    f_equal. unfold free in value_free_equal.
    clear - value_free_equal. induction value as [|c s IH]; [reflexivity|].
    simpl in *. destruct (Ascii.eqb c "="); [discriminate|].
    rewrite IH by assumption. reflexivity.
Qed.

End WireFormat.

(** A message in the format of the service, with blanks around the key
    and a value that denotes an integer [v] of at most 9223372036854 in
    absolute value, makes [getRetryAfterMs] return exactly [v]
    milliseconds, whatever the policy and the random source; and
    [GetRetryType] sleeps for that long, once, and answers [Retry]. *)
Theorem rateLimitMessage_delay (crp : CosmosRetryPolicy) (src : rand.Source)
    (head pad1 pad2 value details1 details2 : string) (v : Z) :
  free "," head ->
  blank pad1 = true ->
  blank pad2 = true ->
  decimalValue value = Some v ->
  - maxMilliseconds <= v <= maxMilliseconds ->
  let errMsg := rateLimitMessage head pad1 pad2 value details1 details2 in
  getRetryAfterMs crp src errMsg = Returns (milliseconds v) /\
  GetRetryType crp src (gocql.otherError errMsg)
    = Returns (mkVerdict gocql.Retry [milliseconds v]).
Proof.
  intros Hhead Hp1 Hp2 Hdec Hv errMsg.
  destruct (rateLimitMessage_reads head pad1 pad2 value details1 details2
              Hhead Hp1 Hp2)
    as [Hm [Hfrag [Hkey Hval]]];
    try (apply (decimalValue_free _ value v Hdec); (discriminate || reflexivity)).
  assert (Hres : getRetryAfterMs crp src errMsg = Returns (milliseconds v)).
  { unfold errMsg.
    rewrite (backoff_with_key crp src _ _ Hm Hfrag value Hkey Hval).
    rewrite (Atoi_decimalValue value v Hdec)
      by (unfold minInt64, maxInt64, maxMilliseconds in *; lia).
    cbn [fst]. rewrite mul_Millisecond_exact by exact Hv. reflexivity. }
  split; [exact Hres|].
  unfold GetRetryType, gocql.Error, bind. rewrite Hres.
  replace (milliseconds v =? -1) with false; [reflexivity|].
  symmetry. apply Z.eqb_neq. unfold milliseconds. lia.
Qed.

(** The message quoted in the source, above [getRetryAfterMs]: 304 ms. *)
Lemma rateLimitMessage_delay_witness :
  getRetryAfterMs (NewCosmosRetryPolicy 3) 0%N
    (rateLimitMessage
       "Request rate is large: ActivityID=c268afb6-7367-4ff8-b06b-b7e2d1269f55"
       " " "" "304" " Additional details='Response status code does not indicate success: "
       "; Substatus: 3200;")
  = Returns (milliseconds 304).
Proof.
  apply (rateLimitMessage_delay (NewCosmosRetryPolicy 3) 0%N
           "Request rate is large: ActivityID=c268afb6-7367-4ff8-b06b-b7e2d1269f55"
           " " "" "304"
           " Additional details='Response status code does not indicate success: "
           "; Substatus: 3200;" 304).
  - reflexivity.
  - reflexivity.
  - reflexivity.
  - reflexivity.
  - split; vm_compute; discriminate.
Defined.

(** ** Server values beyond [int64] *)

(** When the value supplied with the key denotes an integer [v]:
    within [int64] the delay is [v * 1000000] ns reduced to [int64]; above
    [int64] it is -1 ms, whatever [v]; below [int64] it is 0. *)
Theorem server_delay_beyond_int64 (crp : CosmosRetryPolicy) (src : rand.Source)
    (errMsg fragment value : string) (v : Z) :
  rateLimited errMsg ->
  secondFragment errMsg = Some fragment ->
  strings.TrimSpace (fragmentKey fragment) = retryAfterKey ->
  fragmentValue fragment = Some value ->
  decimalValue value = Some v ->
  (minInt64 <= v <= maxInt64 ->
   getRetryAfterMs crp src errMsg = Returns (wrap64 (v * 1000000))) /\
  (maxInt64 < v ->
   getRetryAfterMs crp src errMsg = Returns (milliseconds (-1))) /\
  (v < minInt64 ->
   getRetryAfterMs crp src errMsg = Returns (milliseconds 0)).
Proof.
  intros Hm Hfrag Hkey Hval Hdec.
  rewrite (backoff_with_key crp src errMsg fragment Hm Hfrag value);
    [|apply String.eqb_eq; exact Hkey|exact Hval].
  destruct (Atoi_out_of_range value v Hdec) as [Habove Hbelow].
  split; [|split]; intros Hv.
  - rewrite (Atoi_decimalValue value v Hdec Hv). reflexivity.
  - rewrite (Habove Hv). reflexivity.
  - rewrite (Hbelow Hv). reflexivity.
Qed.

Lemma server_delay_beyond_int64_witness :
  getRetryAfterMs (NewCosmosRetryPolicy 5) 0%N
    "TooManyRequests (429), RetryAfterMs=123456789012345678901234567890"
  = Returns (milliseconds (-1)).
Proof.
  apply (server_delay_beyond_int64 (NewCosmosRetryPolicy 5) 0%N
           "TooManyRequests (429), RetryAfterMs=123456789012345678901234567890"
           " RetryAfterMs=123456789012345678901234567890"
           "123456789012345678901234567890" 123456789012345678901234567890).
  - reflexivity.
  - reflexivity.
  - reflexivity.
  - reflexivity.
  - reflexivity.
  - reflexivity.
Defined.

(** ** What the outcome depends on *)

(** Unless the message carries the marker and a second fragment without
    the key, the outcome of [getRetryAfterMs] is the same for every policy
    and every state of the random source. *)
Theorem getRetryAfterMs_ignores_policy (crp crp' : CosmosRetryPolicy)
    (src src' : rand.Source) (errMsg : string) :
  (rateLimited errMsg ->
   forall fragment, secondFragment errMsg = Some fragment ->
                    carriesRetryAfterKey fragment = true) ->
  getRetryAfterMs crp src errMsg = getRetryAfterMs crp' src' errMsg.
Proof.
  intros Hkey. rewrite !getRetryAfterMs_cases. unfold rateLimited in Hkey.
  destruct (strings.Contains errMsg rateLimitingErrPart); [|reflexivity].
  destruct (secondFragment errMsg) as [fragment|]; [|reflexivity].
  rewrite (Hkey eq_refl fragment eq_refl). reflexivity.
Qed.

Lemma getRetryAfterMs_ignores_policy_witness :
  getRetryAfterMs (NewCosmosRetryPolicy 5) 0%N rateLimitedErrMsg
  = getRetryAfterMs
      {| MaxRetryCount := -1; FixedBackOffTimeMs := 1;
         GrowingBackOffTimeMs := 70000; numAttempts := 9 |}
      1234567%N rateLimitedErrMsg.
Proof.
  apply (getRetryAfterMs_ignores_policy (NewCosmosRetryPolicy 5)
           {| MaxRetryCount := -1; FixedBackOffTimeMs := 1;
              GrowingBackOffTimeMs := 70000; numAttempts := 9 |}
           0%N 1234567%N rateLimitedErrMsg).
  intros _ fragment Hfrag. vm_compute in Hfrag.
  injection Hfrag as <-. reflexivity.
Defined.

(** ** Sequences of calls of [Attempt] *)

Section Sequences.

Context {Q : Type} {RQ : gocql.RetryableQuery Q}.

(** Calls of [Attempt] never change the configuration. *)
Lemma afterAttempts_configuration (qs : list Q) :
  forall crp,
  MaxRetryCount (afterAttempts crp qs) = MaxRetryCount crp /\
  FixedBackOffTimeMs (afterAttempts crp qs) = FixedBackOffTimeMs crp /\
  GrowingBackOffTimeMs (afterAttempts crp qs) = GrowingBackOffTimeMs crp.
Proof.
  unfold afterAttempts.
  induction qs as [|q qs IH]; intros crp; [repeat split|].
  cbn [fold_left]. destruct (IH (fst (Attempt crp q))) as [H1 [H2 H3]].
  rewrite H1, H2, H3. repeat split.
Qed.

(** [Attempt] depends on the policy through its configuration only. *)
Lemma Attempt_configuration (crp crp' : CosmosRetryPolicy) (q : Q) :
  MaxRetryCount crp' = MaxRetryCount crp ->
  FixedBackOffTimeMs crp' = FixedBackOffTimeMs crp ->
  GrowingBackOffTimeMs crp' = GrowingBackOffTimeMs crp ->
  Attempt crp' q = Attempt crp q.
Proof.
  intros H1 H2 H3. unfold Attempt. cbn [MaxRetryCount].
  rewrite H1, H2, H3. reflexivity.
Qed.

End Sequences.

(** [Attempt] keeps no history: after any sequence of earlier calls, on
    any queries, a call answers and leaves the policy exactly as it would
    on the policy as it was first. *)
Theorem Attempt_forgets_history (Q : Type) (RQ : gocql.RetryableQuery Q)
    (crp : CosmosRetryPolicy) (qs : list Q) (q : Q) :
  Attempt (afterAttempts crp qs) q = Attempt crp q /\
  afterAttempts crp (qs ++ [q]) = fst (Attempt crp q).
Proof.
  destruct (afterAttempts_configuration qs crp) as [H1 [H2 H3]].
  assert (H : Attempt (afterAttempts crp qs) q = Attempt crp q)
    by (apply Attempt_configuration; assumption).
  split; [exact H|].
  unfold afterAttempts in *. rewrite fold_left_app. cbn [fold_left].
  rewrite H. reflexivity.
Qed.

(** A refusal is final: once [Attempt] has refused a query, it refuses
    every query with at least as many attempts, whatever calls of
    [Attempt] came in between. *)
Theorem Attempt_refusal_is_final (Q : Type) (RQ : gocql.RetryableQuery Q)
    (crp : CosmosRetryPolicy) (q q' : Q) (qs : list Q) :
  snd (Attempt crp q) = false ->
  gocql.Attempts q <= gocql.Attempts q' ->
  snd (Attempt (afterAttempts crp qs) q') = false.
Proof.
  intros Hrefused Hmore.
  destruct (afterAttempts_configuration qs crp) as [H1 [H2 H3]].
  rewrite (Attempt_configuration crp (afterAttempts crp qs) q' H1 H2 H3).
  unfold Attempt in *. cbn [snd MaxRetryCount] in *.
  apply orb_false_iff in Hrefused as [Hgt Hne].
  apply Z.leb_gt in Hgt. apply orb_false_iff. split; [|exact Hne].
  apply Z.leb_gt. lia.
Qed.

(** A policy made with [MaxRetryCount = -2] refuses the mock query, and
    goes on refusing it. *)
Lemma Attempt_refusal_is_final_witness :
  snd (Attempt
         (afterAttempts (NewCosmosRetryPolicy (-2))
            [mkMockRetryableQuery; mkMockRetryableQuery])
         mkMockRetryableQuery) = false.
Proof.
  apply (Attempt_refusal_is_final MockRetryableQuery _
           (NewCosmosRetryPolicy (-2)) mkMockRetryableQuery).
  - reflexivity.
  - cbn. lia.
Defined.

(** ** Policies as [NewCosmosRetryPolicy] makes them *)

(** An unbounded policy with the default back-off times admits every
    query; and once it has been asked about a query with [n] attempts,
    [0 <= n <= 9223372034], whatever it was asked before, a message with
    the marker and no key in its second fragment gives a delay of at
    least [n] seconds and less than [n + 2] seconds. *)
Theorem unbounded_default_delay_window (Q : Type) (RQ : gocql.RetryableQuery Q)
    (qs : list Q) (q : Q) (src : rand.Source) (errMsg fragment : string) :
  0 <= gocql.Attempts q <= 9223372034 ->
  rateLimited errMsg ->
  secondFragment errMsg = Some fragment ->
  carriesRetryAfterKey fragment = false ->
  let crp := afterAttempts (NewCosmosRetryPolicy (-1)) qs in
  snd (Attempt crp q) = true /\
  exists d,
    getRetryAfterMs (fst (Attempt crp q)) src errMsg = Returns d /\
    gocql.Attempts q * time.Second <= d
      < (gocql.Attempts q + 2) * time.Second.
Proof.
  intros Hn Hm Hfrag Hkey crp.
  destruct (afterAttempts_configuration qs (NewCosmosRetryPolicy (-1)))
    as [H1 [H2 H3]].
  fold crp in H1, H2, H3.
  rewrite (Attempt_configuration (NewCosmosRetryPolicy (-1)) crp q H1 H2 H3).
  split; [unfold Attempt; cbn [snd MaxRetryCount NewCosmosRetryPolicy];
          apply orb_true_r|].
  eexists. split.
  - apply (backoff_growing _ src errMsg fragment Hm Hfrag Hkey). cbn. lia.
  - cbn [Attempt fst GrowingBackOffTimeMs numAttempts NewCosmosRetryPolicy].
    pose proof (salt_bounds src) as Hj.
    unfold defaultGrowingBackOffTimeMs.
    rewrite growing_exact by (exact Hj || (unfold maxMilliseconds; lia)).
    unfold growingBackOffSaltMillis, milliseconds, time.Second in *. lia.
Qed.

Lemma unbounded_default_delay_window_witness :
  exists d,
    getRetryAfterMs
      (fst (Attempt (NewCosmosRetryPolicy (-1)) mkMockRetryableQuery))
      1234567%N rateLimitedErrMsgWithoutRetryAfterMs = Returns d /\
    0 <= d < 2 * time.Second.
Proof.
  destruct (unbounded_default_delay_window MockRetryableQuery _ []
              mkMockRetryableQuery 1234567%N
              rateLimitedErrMsgWithoutRetryAfterMs (" " ++ errorDetailsHead))
    as [_ [d [Hres Hd]]].
  - split; vm_compute; discriminate.
  - reflexivity.
  - reflexivity.
  - reflexivity.
  - exists d. split; [exact Hres | exact Hd].
Defined.

(** A policy made with a bound [m >= 0] and the default back-off times
    waits 5000 ms on a message with the marker and no key in its second
    fragment, whatever queries [Attempt] has been asked about and whatever
    the random source: [getRetryAfterMs] returns exactly 5000 ms, and
    [GetRetryType] sleeps for that long, once, and answers [Retry]. *)
Theorem bounded_default_delay_fixed (Q : Type) (RQ : gocql.RetryableQuery Q)
    (m : Z) (qs : list Q) (src : rand.Source) (errMsg fragment : string) :
  -1 < m ->
  rateLimited errMsg ->
  secondFragment errMsg = Some fragment ->
  carriesRetryAfterKey fragment = false ->
  let crp := afterAttempts (NewCosmosRetryPolicy m) qs in
  getRetryAfterMs crp src errMsg = Returns (milliseconds 5000) /\
  GetRetryType crp src (gocql.otherError errMsg)
    = Returns (mkVerdict gocql.Retry [milliseconds 5000]).
Proof.
  intros Hmax Hm Hfrag Hkey crp.
  destruct (afterAttempts_configuration qs (NewCosmosRetryPolicy m))
    as [H1 [H2 H3]].
  fold crp in H1, H2, H3.
  assert (Hres : getRetryAfterMs crp src errMsg = Returns (milliseconds 5000)).
  { rewrite (backoff_fixed crp src errMsg fragment Hm Hfrag Hkey)
      by (rewrite H1; exact Hmax).
    rewrite H2. reflexivity. }
  split; [exact Hres|].
  unfold GetRetryType, gocql.Error, bind. rewrite Hres. reflexivity.
Qed.

Lemma bounded_default_delay_fixed_witness :
  GetRetryType
    (afterAttempts (NewCosmosRetryPolicy 3) [mkMockRetryableQuery])
    0%N (gocql.otherError rateLimitedErrMsgWithoutRetryAfterMs)
  = Returns (mkVerdict gocql.Retry [milliseconds 5000]).
Proof.
  apply (bounded_default_delay_fixed MockRetryableQuery _ 3
           [mkMockRetryableQuery] 0%N rateLimitedErrMsgWithoutRetryAfterMs
           (" " ++ errorDetailsHead)).
  - reflexivity.
  - reflexivity.
  - reflexivity.
  - reflexivity.
Defined.

(** ** Blanks around the value *)

(** Blanks are tolerated around the key, not before the value: a message
    in the format of the service whose value begins with an ASCII white
    space gives a delay of 0 ms, whatever follows the blank. *)
Theorem blank_before_value_gives_zero (crp : CosmosRetryPolicy)
    (src : rand.Source) (head pad1 pad2 rest details1 details2 : string)
    (c : ascii) :
  free "," head ->
  blank pad1 = true ->
  blank pad2 = true ->
  asciiSpace c = true ->
  free "," rest ->
  free "=" rest ->
  getRetryAfterMs crp src
    (rateLimitMessage head pad1 pad2 (String c rest) details1 details2)
  = Returns (milliseconds 0).
Proof.
  intros Hhead Hp1 Hp2 Hc Hcomma Hequal.
  assert (Hfree : forall sep, asciiSpace sep = false -> free sep rest ->
                              free sep (String c rest)).
  { intros sep Hsep Hrest. unfold free in *. cbn [after].
    destruct (Ascii.eqb_spec c sep) as [->|_]; [congruence | exact Hrest]. }
  destruct (rateLimitMessage_reads head pad1 pad2 (String c rest)
              details1 details2 Hhead Hp1 Hp2)
    as [Hm [Hfrag [Hkey Hval]]]; try (apply Hfree; [reflexivity | assumption]).
  rewrite (backoff_with_key crp src _ _ Hm Hfrag (String c rest) Hkey Hval).
  rewrite Atoi_malformedInteger; [reflexivity|].
  unfold malformedInteger, bytes, unsigned.
  cbn [list_ascii_of_string map].
  pose proof (asciiSpace_ascii c Hc) as Hlt.
  unfold asciiSpace in Hc. cbv zeta in Hc.
  assert (Hb : Go.byte c <= 32)
    by (repeat (apply orb_prop in Hc as [Hc | Hc]); apply Z.eqb_eq in Hc; lia).
  replace (Go.byte c =? 43) with false by (symmetry; apply Z.eqb_neq; lia).
  replace (Go.byte c =? 45) with false by (symmetry; apply Z.eqb_neq; lia).
  right. cbn [leadingDigits]. unfold isDigit.
  replace (48 <=? Go.byte c) with false by (symmetry; apply Z.leb_gt; lia).
  cbn [andb fst snd]. split; [discriminate | unfold strconv.maxUint64; lia].
Qed.

Lemma blank_before_value_gives_zero_witness :
  getRetryAfterMs (NewCosmosRetryPolicy 5) 0%N
    (rateLimitMessage "Request rate is large" " " "" " 42" " " ";")
  = Returns (milliseconds 0).
Proof.
  apply (blank_before_value_gives_zero (NewCosmosRetryPolicy 5) 0%N
           "Request rate is large" " " "" "42" " " ";" " ").
  - reflexivity.
  - reflexivity.
  - reflexivity.
  - reflexivity.
  - reflexivity.
  - reflexivity.
Defined.
